(** * POSIX clock and sleep of nng ([src/platform/posix/posix_clock.c])

    A shallow embedding of [nni_clock] and [nni_msleep] for the three ways
    the file can be compiled (plain POSIX, Apple, [NNG_USE_GETTIMEOFDAY]),
    run against an explicit model of the operating system: two clocks, a
    log of the system calls made, and a script of what the environment does
    during each call (time passing, signals, failures, steps of the time of
    day). *)

From Stdlib Require Import ZArith NArith List String Bool Lia.
Import ListNotations.
Local Open Scope Z_scope.

(** ** Machine integers *)

(** [nni_time] is [uint64_t]: arithmetic on it wraps modulo 2^64. *)
Definition wrap64 (z : Z) : Z := z mod 2 ^ 64.

(** Conversion to [int] (32 bits, two's complement), as in the cast
    [(int) (expire - now)]. *)
Definition to_int (z : Z) : Z := (z + 2 ^ 31) mod 2 ^ 32 - 2 ^ 31.

(** Modelled from the spec: the typedefs [nni_time] and [nni_duration] are
    declared in [core/defs.h], outside [posix_clock.c].  An instant is an
    unsigned 64-bit count of milliseconds.  A duration is a signed count of
    milliseconds no wider than [int], to which line 167 casts a difference
    of instants; the properties below state the range they need. *)
Definition nni_time := Z.
Definition nni_duration := Z.

(** ** Time structures *)

Record timespec := mk_timespec { tv_sec : Z; tv_nsec : Z }.

Module TV.
Record timeval := mk_timeval { tv_sec : Z; tv_usec : Z }.
End TV.

Record mach_timebase_info_data_t :=
  mk_timebase { numer : Z; denom : Z }.

Definition timespec_of_ns (n : Z) : timespec :=
  {| tv_sec := n / 1000000000; tv_nsec := n mod 1000000000 |}.

Definition ns_of_timespec (ts : timespec) : Z :=
  tv_sec ts * 1000000000 + tv_nsec ts.

Definition timeval_of_ns (n : Z) : TV.timeval :=
  {| TV.tv_sec := n / 1000000000;
     TV.tv_usec := (n mod 1000000000) / 1000 |}.

(** A request that [nanosleep] accepts: anything else is [EINVAL]. *)
Definition valid_request (ts : timespec) : bool :=
  (0 <=? tv_sec ts) && (0 <=? tv_nsec ts) && (tv_nsec ts <? 1000000000).

(** ** The operating system *)

(** The system calls are not part of [posix_clock.c]; what follows is the
    behaviour that POSIX and the Mach documentation give them, with the
    choices left to the environment (how much time goes by, whether a
    signal arrives, whether the call fails, whether somebody sets the time
    of day) taken from a script, one step per call. *)

Inductive clockid := CLOCK_REALTIME | CLOCK_MONOTONIC | CLOCK_OTHER (id : Z).

Definition EINTR : Z := 4.
Definition EINVAL : Z := 22.

(** One entry of the system-call log: the call and its arguments. *)
Inductive syscall :=
| SysClockGettime (clk : clockid)
| SysGettimeofday
| SysMachAbsoluteTime
| SysMachTimebaseInfo
| SysNanosleep (rqtp : timespec)
| SysPoll (nfds : Z) (timeout : Z).

Record sys := mk_sys {
  mono_ns  : Z;      (* monotonic clock, nanoseconds since boot *)
  tod_ns   : Z;      (* time of day, nanoseconds since the epoch *)
  timebase : mach_timebase_info_data_t;  (* Mach tick scale factor *)
  os_10_12 : bool;   (* the running system is macOS 10.12 or later *)
  errno    : Z;
  trace    : list syscall
}.

(** What the environment does while one system call is in progress. *)
Inductive env_step :=
| Proceed (lapse : N)      (* nothing special; [lapse] ns go by (for a timed
                              wait: beyond the time asked for) *)
| Interrupt (elapsed : N)  (* a signal is delivered [elapsed] ns into the call *)
| Fail (err : Z)           (* the call fails at once with this [errno] *)
| Adjust (delta : Z).      (* the time of day is stepped by [delta] ns *)

Definition log (c : syscall) (w : sys) : sys :=
  mk_sys (mono_ns w) (tod_ns w) (timebase w) (os_10_12 w) (errno w)
         (trace w ++ [c]).

Definition set_errno (e : Z) (w : sys) : sys :=
  mk_sys (mono_ns w) (tod_ns w) (timebase w) (os_10_12 w) e (trace w).

Definition advance (ns : Z) (w : sys) : sys :=
  mk_sys (mono_ns w + ns) (tod_ns w + ns) (timebase w) (os_10_12 w)
         (errno w) (trace w).

Definition step_tod (delta : Z) (w : sys) : sys :=
  mk_sys (mono_ns w) (tod_ns w + delta) (timebase w) (os_10_12 w)
         (errno w) (trace w).

(** The effect of an environment step on a call that does not wait. *)
Definition pass (e : env_step) (w : sys) : sys :=
  match e with
  | Proceed lapse => advance (Z.of_N lapse) w
  | Interrupt elapsed => advance (Z.of_N elapsed) w
  | Fail _ => w
  | Adjust delta => step_tod delta w
  end.

Definition read_clock (clk : clockid) (w : sys) : Z :=
  match clk with
  | CLOCK_MONOTONIC => mono_ns w
  | _ => tod_ns w
  end.

(** [clock_gettime(clk, &ts)]: the status and what is stored in [ts]
    ([None]: nothing is stored). *)
Definition sys_clock_gettime (clk : clockid) (w : sys) (e : env_step)
  : Z * option timespec * sys :=
  match clk, e with
  | CLOCK_OTHER _, _ =>
      (-1, None, log (SysClockGettime clk) (set_errno EINVAL w))
  | _, Fail err =>
      (-1, None, log (SysClockGettime clk) (set_errno err w))
  | _, _ =>
      let w' := pass e w in
      (0, Some (timespec_of_ns (read_clock clk w')),
       log (SysClockGettime clk) w')
  end.

(** [gettimeofday(&tv, NULL)]. *)
Definition sys_gettimeofday (w : sys) (e : env_step)
  : Z * option TV.timeval * sys :=
  match e with
  | Fail err => (-1, None, log SysGettimeofday (set_errno err w))
  | _ =>
      let w' := pass e w in
      (0, Some (timeval_of_ns (tod_ns w')), log SysGettimeofday w')
  end.

(** [mach_absolute_time()]: the tick counter, a bare [uint64_t] with no
    status.  One tick lasts [numer / denom] nanoseconds. *)
Definition sys_mach_absolute_time (w : sys) (e : env_step) : Z * sys :=
  let w' := pass e w in
  (wrap64 (mono_ns w' * denom (timebase w') / numer (timebase w')),
   log SysMachAbsoluteTime w').

(** [mach_timebase_info(&info)]: stores the scale factor; it takes no time
    and its status is [KERN_SUCCESS]. *)
Definition sys_mach_timebase_info (w : sys)
  : Z * mach_timebase_info_data_t * sys :=
  (0, timebase w, log SysMachTimebaseInfo w).

(** [nanosleep(rqtp, rmtp)]: the status and what is stored through [rmtp]. *)
Definition sys_nanosleep (rqtp : timespec) (w : sys) (e : env_step)
  : Z * option timespec * sys :=
  if negb (valid_request rqtp) then
    (-1, None, log (SysNanosleep rqtp) (set_errno EINVAL (pass e w)))
  else
    let req := ns_of_timespec rqtp in
    match e with
    | Proceed lapse =>
        (0, None, log (SysNanosleep rqtp) (advance (req + Z.of_N lapse) w))
    | Interrupt elapsed =>
        if Z.of_N elapsed <? req then
          (-1, Some (timespec_of_ns (req - Z.of_N elapsed)),
           log (SysNanosleep rqtp)
               (set_errno EINTR (advance (Z.of_N elapsed) w)))
        else
          (0, None, log (SysNanosleep rqtp) (advance (Z.of_N elapsed) w))
    | Fail err =>
        (-1, None, log (SysNanosleep rqtp) (set_errno err w))
    | Adjust delta =>
        (0, None, log (SysNanosleep rqtp) (advance req (step_tod delta w)))
    end.

(** [poll(fds, nfds, timeout)] with no descriptor to watch: a pure timer.
    [None]: the call does not return (negative timeout and no signal). *)
Definition sys_poll (nfds : Z) (timeout : Z) (w : sys) (e : env_step)
  : option (Z * sys) :=
  let req := timeout * 1000000 in
  match e with
  | Fail err => Some (-1, log (SysPoll nfds timeout) (set_errno err w))
  | Interrupt elapsed =>
      if (timeout <? 0) || (Z.of_N elapsed <? req) then
        Some (-1, log (SysPoll nfds timeout)
                      (set_errno EINTR (advance (Z.of_N elapsed) w)))
      else
        Some (0, log (SysPoll nfds timeout) (advance (Z.of_N elapsed) w))
  | Proceed lapse =>
      if timeout <? 0 then None
      else Some (0, log (SysPoll nfds timeout)
                        (advance (req + Z.of_N lapse) w))
  | Adjust delta =>
      if timeout <? 0 then None
      else Some (0, log (SysPoll nfds timeout)
                        (advance req (step_tod delta w)))
  end.

(** ** Running code against the system *)

Inductive outcome (A : Type) :=
| Returned (a : A) (w : sys) (rest : list env_step)
| Panicked (msg : string) (w : sys)   (* [nni_panic]: the process aborted *)
| Undefined (w : sys)                 (* undefined behaviour in C *)
| Running (w : sys).                  (* the call has not returned when the
                                         observed script ends *)
Arguments Returned {A} a w rest.
Arguments Panicked {A} msg w.
Arguments Undefined {A} w.
Arguments Running {A} w.

Definition M (A : Type) : Type := sys -> list env_step -> outcome A.

Definition ret {A} (a : A) : M A := fun w s => Returned a w s.

Definition bind {A B} (m : M A) (k : A -> M B) : M B :=
  fun w s =>
    match m w s with
    | Returned a w' s' => k a w' s'
    | Panicked msg w' => Panicked msg w'
    | Undefined w' => Undefined w'
    | Running w' => Running w'
    end.

Notation "x <- m ;; k" := (bind m (fun x => k))
  (at level 61, m at next level, right associativity).
Notation "' pat <- m ;; k" := (bind m (fun x => match x with pat => k end))
  (at level 61, pat pattern, m at next level, right associativity).

(** A system call takes the next step of the script. *)
Definition call {A} (f : sys -> env_step -> A * sys) : M A :=
  fun w s =>
    match s with
    | [] => Running w
    | e :: s' => let '(a, w') := f w e in Returned a w' s'
    end.

(** A pointer argument is modelled by the content of the object it points
    to: the call receives the content and returns the new content. *)
Definition stored {A} (old : A) (new : option A) : A :=
  match new with Some a => a | None => old end.

Definition clock_gettime (clk : clockid) (tp : timespec)
  : M (Z * timespec) :=
  call (fun w e => let '(rv, out, w') := sys_clock_gettime clk w e in
                   (rv, stored tp out, w')).

Definition gettimeofday (tp : TV.timeval) : M (Z * TV.timeval) :=
  call (fun w e => let '(rv, out, w') := sys_gettimeofday w e in
                   (rv, stored tp out, w')).

Definition mach_absolute_time : M Z := call sys_mach_absolute_time.

Definition mach_timebase_info (info : mach_timebase_info_data_t)
  : M (Z * mach_timebase_info_data_t) :=
  fun w s => let '(a, w') := sys_mach_timebase_info w in Returned a w' s.

(** [nanosleep(rqtp, rmtp)] with both pointers to the same object, as in
    [nanosleep(&ts, &ts)]: the remaining time overwrites the request. *)
Definition nanosleep_in_place (ts : timespec) : M (Z * timespec) :=
  call (fun w e => let '(rv, out, w') := sys_nanosleep ts w e in
                   (rv, stored ts out, w')).

Definition poll (nfds timeout : Z) : M Z :=
  fun w s =>
    match s with
    | [] => Running w
    | e :: s' =>
        match sys_poll nfds timeout w e with
        | Some (rv, w') => Returned rv w' s'
        | None => Running (log (SysPoll nfds timeout) w)
        end
    end.

Definition get_errno : M Z := fun w s => Returned (errno w) w s.

Definition builtin_available_10_12 : M bool :=
  fun w s => Returned (os_10_12 w) w s.

Definition undefined {A} : M A := fun w _ => Undefined w.

(** A local variable before anything is stored in it.  The code below never
    reads one in that state. *)
Definition uninit_timespec : timespec := mk_timespec 0 0.
Definition uninit_timeval : TV.timeval := TV.mk_timeval 0 0.
Definition uninit_timebase : mach_timebase_info_data_t := mk_timebase 0 0.

(** Modelled from the spec: [nni_panic] is defined in [core/panic.c],
    outside [posix_clock.c].  It aborts the process with a diagnostic
    message: the format, whose final [%s] is replaced by the argument. *)
Definition nni_panic {A} (fmt_prefix : string) (arg : string) : M A :=
  fun w _ => Panicked (fmt_prefix ++ arg) w.

(** ** The build *)

(** Which of the conditional sections of the file is compiled.  For the
    Apple build, [sdk_10_12] says whether
    [defined(MAC_OS_X_VERSION_10_12) && __has_builtin(__builtin_available)]
    held at compile time.  [NNG_USE_CLOCKID] is set by the build system. *)
Inductive build :=
| Posix (NNG_USE_CLOCKID : clockid)
| Apple (NNG_USE_CLOCKID : clockid) (sdk_10_12 : bool)
| Gettimeofday.

(** Line 62: ticks to milliseconds, in [uint64_t] arithmetic.  Division by
    a zero [denom] is undefined. *)
Definition mach_ticks_to_msec (absolute_time : Z)
           (info : mach_timebase_info_data_t) : option nni_time :=
  if denom info =? 0 then None
  else Some (wrap64 (absolute_time * numer info) / denom info / 10000000).

Section Clock.

(** [strerror] of the C library. *)
Variable strerror : Z -> string.

(** ** [nni_clock] *)

(** Lines 38-46 and 82-90: the [clock_gettime] path. *)
Definition nni_clock_gettime (clk : clockid) : M nni_time :=
  let ts := uninit_timespec in
  '(rv, ts) <- clock_gettime clk ts ;;
  if negb (rv =? 0) then
    e <- get_errno ;;
    nni_panic "clock_gettime failed: " (strerror e)
  else
    let msec := wrap64 (tv_sec ts) in
    let msec := wrap64 (msec * 1000) in
    let msec := wrap64 (msec + Z.quot (tv_nsec ts) 1000000) in
    ret msec.

(** Lines 54-62: the Mach tick path. *)
Definition nni_clock_mach : M nni_time :=
  let time_base_info := uninit_timebase in
  absolute_time <- mach_absolute_time ;;
  '(_, time_base_info) <- mach_timebase_info time_base_info ;;
  match mach_ticks_to_msec absolute_time time_base_info with
  | Some msec => ret msec
  | None => undefined
  end.

(** Lines 126-141: the [gettimeofday] version. *)
Definition nni_clock_gettimeofday : M nni_time :=
  let tv := uninit_timeval in
  '(rv, tv) <- gettimeofday tv ;;
  if negb (rv =? 0) then
    e <- get_errno ;;
    nni_panic "gettimeofday failed: " (strerror e)
  else
    let ms := wrap64 (TV.tv_sec tv) in
    let ms := wrap64 (ms * 1000) in
    let ms := wrap64 (ms + Z.quot (TV.tv_usec tv) 1000) in
    ret ms.

Definition nni_clock (b : build) : M nni_time :=
  match b with
  | Posix clk => nni_clock_gettime clk
  | Apple clk sdk =>
      if sdk then
        avail <- builtin_available_10_12 ;;
        if avail then nni_clock_gettime clk else nni_clock_mach
      else nni_clock_mach
  | Gettimeofday => nni_clock_gettimeofday
  end.

(** ** [nni_msleep] *)

(** Lines 104-108.  Each turn of the loop makes one system call, so a
    script of [fuel] steps lets it turn at most [fuel] times. *)
Fixpoint nanosleep_loop (fuel : nat) (ts : timespec) : M unit :=
  if negb (tv_sec ts =? 0) || negb (tv_nsec ts =? 0) then
    match fuel with
    | O => fun w _ => Running w
    | S fuel' =>
        '(rv, ts) <- nanosleep_in_place ts ;;
        if rv =? 0 then ret tt else nanosleep_loop fuel' ts
    end
  else ret tt.

(** Lines 95-109.  [ms / 1000] and [ms % 1000] are C's truncating
    division; [(ms % 1000) * 1000000] stays within [int]. *)
Definition nni_msleep_nanosleep (ms : nni_duration) : M unit :=
  let ts := {| tv_sec := Z.quot ms 1000;
               tv_nsec := Z.rem ms 1000 * 1000000 |} in
  fun w s => nanosleep_loop (List.length s) ts w s.

(** Lines 166-169. *)
Fixpoint poll_loop (fuel : nat) (now expire : nni_time) : M unit :=
  if now <? expire then
    match fuel with
    | O => fun w _ => Running w
    | S fuel' =>
        _ <- poll 0 (to_int (wrap64 (expire - now))) ;;
        now <- nni_clock Gettimeofday ;;
        poll_loop fuel' now expire
    end
  else ret tt.

(** Lines 143-170. *)
Definition nni_msleep_poll (ms : nni_duration) : M unit :=
  now <- nni_clock Gettimeofday ;;
  let expire := wrap64 (now + wrap64 ms) in
  fun w s => poll_loop (List.length s) now expire w s.

Definition nni_msleep (b : build) (ms : nni_duration) : M unit :=
  match b with
  | Gettimeofday => nni_msleep_poll ms
  | _ => nni_msleep_nanosleep ms
  end.

End Clock.

(** ** Observations used by the properties *)

Definition sys_of {A} (o : outcome A) : sys :=
  match o with
  | Returned _ w _ => w
  | Panicked _ w => w
  | Undefined w => w
  | Running w => w
  end.

(** The platform time query behind [nni_clock], for a build on a system. *)
Inductive time_source :=
| ViaClockGettime (clk : clockid)
| ViaMach
| ViaGettimeofday.

Definition time_source_of (b : build) (w : sys) : time_source :=
  match b with
  | Posix clk => ViaClockGettime clk
  | Apple clk sdk => if sdk && os_10_12 w then ViaClockGettime clk else ViaMach
  | Gettimeofday => ViaGettimeofday
  end.

(** Scenarios: Clock called twice, Clock around a Sleep, Clock [n] times. *)
Section Scenarios.

Variable strerror : Z -> string.

Definition clock_twice (b : build) : M (nni_time * nni_time) :=
  t1 <- nni_clock strerror b ;;
  t2 <- nni_clock strerror b ;;
  ret (t1, t2).

Definition timed_sleep (b : build) (d : nni_duration)
  : M (nni_time * nni_time) :=
  before <- nni_clock strerror b ;;
  _ <- nni_msleep strerror b d ;;
  after <- nni_clock strerror b ;;
  ret (before, after).

Fixpoint clock_n (b : build) (n : nat) : M (list nni_time) :=
  match n with
  | O => ret []
  | S n' =>
      t <- nni_clock strerror b ;;
      ts <- clock_n b n' ;;
      ret (t :: ts)
  end.

End Scenarios.

(** The test of the [nanosleep] loop, [ts.tv_sec || ts.tv_nsec]. *)
Definition nonzero (ts : timespec) : bool :=
  negb (tv_sec ts =? 0) || negb (tv_nsec ts =? 0).

(** The conversion of ticks to milliseconds in the words of the
    specification: nanoseconds divided by one million. *)
Definition spec_ticks_to_msec (ticks numerator denominator : Z) : Z :=
  ticks * numerator / denominator / 1000000.

(** Two systems, two outcomes that differ at most in [errno]. *)
Definition same_but_errno (w w' : sys) : Prop :=
  mono_ns w = mono_ns w' /\ tod_ns w = tod_ns w'
  /\ timebase w = timebase w' /\ os_10_12 w = os_10_12 w'
  /\ trace w = trace w'.

Definition same_outcome {A} (o o' : outcome A) : Prop :=
  match o, o' with
  | Returned a w s, Returned a' w' s' =>
      a = a' /\ s = s' /\ same_but_errno w w'
  | Panicked m w, Panicked m' w' => m = m' /\ same_but_errno w w'
  | Undefined w, Undefined w' => same_but_errno w w'
  | Running w, Running w' => same_but_errno w w'
  | _, _ => False
  end.

(** Waits and scale-factor reads in a log. *)
Definition is_wait (c : syscall) : bool :=
  match c with
  | SysNanosleep _ => true
  | SysPoll _ _ => true
  | _ => false
  end.

Definition wait_calls (l : list syscall) : list syscall := filter is_wait l.

Definition is_timebase_read (c : syscall) : bool :=
  match c with
  | SysMachTimebaseInfo => true
  | _ => false
  end.

Definition timebase_reads (l : list syscall) : nat :=
  List.length (filter is_timebase_read l).

(** A script during which nobody sets the time of day backwards. *)
Definition steps_back (e : env_step) : bool :=
  match e with
  | Adjust delta => delta <? 0
  | _ => false
  end.

Definition steady (s : list env_step) : bool :=
  forallb (fun e => negb (steps_back e)) s.

Definition result_of {A} (o : outcome A) : option A :=
  match o with
  | Returned a _ _ => Some a
  | _ => None
  end.

(** The clock that a time source reads, and whether the administrator can
    set it. *)
Definition source_ns (src : time_source) (w : sys) : Z :=
  match src with
  | ViaClockGettime clk => read_clock clk w
  | ViaMach => mono_ns w
  | ViaGettimeofday => tod_ns w
  end.

Definition settable (src : time_source) : bool :=
  match src with
  | ViaClockGettime CLOCK_MONOTONIC => false
  | ViaMach => false
  | _ => true
  end.

(** The source is not set back while the script runs. *)
Definition source_steady (b : build) (w : sys) (s : list env_step) : bool :=
  negb (settable (time_source_of b w)) || steady s.

(** Between the states [w] and [w'] the source stays within what the
    conversion to [nni_time] can hold without wrapping. *)
Definition in_range (b : build) (w w' : sys) : bool :=
  let src := time_source_of b w in
  (0 <=? source_ns src w) && (source_ns src w' <? 2 ^ 63)
  && match src with
     | ViaMach =>
         (0 <? numer (timebase w)) && (0 <? denom (timebase w))
         && (mono_ns w' * denom (timebase w) <? 2 ^ 64)
     | _ => true
     end.

(** ** Further observations *)

(** The request that lines 100-101 build from a duration. *)
Definition msleep_timespec (ms : nni_duration) : timespec :=
  {| tv_sec := Z.quot ms 1000; tv_nsec := Z.rem ms 1000 * 1000000 |}.

(** Calls by kind. *)
Definition is_time_query (c : syscall) : bool :=
  match c with
  | SysClockGettime _ => true
  | SysGettimeofday => true
  | SysMachAbsoluteTime => true
  | SysMachTimebaseInfo => true
  | _ => false
  end.

Definition is_nanosleep (c : syscall) : bool :=
  match c with
  | SysNanosleep _ => true
  | _ => false
  end.

(** What the [poll] version of a sleep of [d] ms is expected to log: queries
    of the time of day, and polls on no descriptor with a timeout from 1 to
    [d]. *)
Definition poll_sleep_call (d : Z) (c : syscall) : bool :=
  match c with
  | SysGettimeofday => true
  | SysPoll nfds timeout => (nfds =? 0) && (0 <? timeout) && (timeout <=? d)
  | _ => false
  end.

(** A [nanosleep] call whose request is well formed and asks for no more
    than [limit] nanoseconds. *)
Definition nanosleep_within (limit : Z) (c : syscall) : bool :=
  match c with
  | SysNanosleep rqtp =>
      valid_request rqtp && (ns_of_timespec rqtp <=? limit)
  | _ => false
  end.

(** Time slept over a run of interrupted calls. *)
Definition total_elapsed (els : list N) : Z :=
  fold_right (fun e acc => Z.of_N e + acc) 0 els.

(** The step makes the call fail. *)
Definition fails (e : env_step) : bool :=
  match e with Fail _ => true | _ => false end.

(** The step is a setting of the time of day. *)
Definition adjusts (e : env_step) : bool :=
  match e with Adjust _ => true | _ => false end.

(** A script during which nobody sets the time of day at all. *)
Definition unadjusted (s : list env_step) : bool :=
  forallb (fun e => negb (adjusts e)) s.

(** Clock on the tick path written out as its platform calls: the counter
    is read, the scale factor is stored by [mach_timebase_info], and the
    counter is converted with the factor that this very call stored. *)
Fixpoint mach_clock_replay (w : sys) (s : list env_step) (n : nat) {struct n}
  : option (list nni_time) :=
  match n with
  | O => Some []
  | S n' =>
      match s with
      | [] => None
      | e :: s' =>
          let '(ticks, w1) := sys_mach_absolute_time w e in
          let '(_, info, w2) := sys_mach_timebase_info w1 in
          match mach_ticks_to_msec ticks info with
          | Some msec => option_map (cons msec) (mach_clock_replay w2 s' n')
          | None => None
          end
      end
  end.

(** The [nanosleep] calls of a sleep that still owes [owed] nanoseconds and
    is cut short after [els], one after the other: each call asks for what
    the one before left. *)
Fixpoint resumed_requests (owed : Z) (els : list N) : list syscall :=
  match els with
  | [] => []
  | el :: els' =>
      SysNanosleep (timespec_of_ns owed)
        :: resumed_requests (owed - Z.of_N el) els'
  end.

(** The buffer and the system after a run of [nanosleep] calls on the same
    buffer none of which returned zero ([None] if one did). *)
Fixpoint after_failures (ts : timespec) (w : sys) (pre : list env_step)
  : option (timespec * sys) :=
  match pre with
  | [] => Some (ts, w)
  | e :: pre' =>
      let '(rv, out, w1) := sys_nanosleep ts w e in
      if rv =? 0 then None else after_failures (stored ts out) w1 pre'
  end.

(** A sample C library and a sample system, for running the model. *)
Definition strerror_sample (e : Z) : string :=
  if e =? 1 then "Operation not permitted"
  else if e =? 4 then "Interrupted system call"
  else if e =? 22 then "Invalid argument"
  else "Unknown error".

(** A system whose time of day is at the epoch and whose tick counter counts
    nanoseconds. *)
Definition sys_tick (ticks : Z) : sys :=
  {| mono_ns := ticks;
     tod_ns := 0;
     timebase := mk_timebase 1 1;
     os_10_12 := false;
     errno := 0;
     trace := [] |}.

Definition sys_sample : sys :=
  {| mono_ns := 5000000000;
     tod_ns := 1700000000000000000;
     timebase := mk_timebase 125 3;
     os_10_12 := false;
     errno := 0;
     trace := [] |}.

(** * Properties *)

Section ClockProperties.

Variable strerror : Z -> string.

Lemma nni_clock_dispatch (b : build) (w : sys) (s : list env_step) :
  nni_clock strerror b w s =
  match time_source_of b w with
  | ViaClockGettime clk => nni_clock_gettime strerror clk w s
  | ViaMach => nni_clock_mach w s
  | ViaGettimeofday => nni_clock_gettimeofday strerror w s
  end.
Proof.
  destruct b as [clk | clk [|] |]; simpl; try reflexivity.
  unfold bind, builtin_available_10_12. destruct (os_10_12 w); reflexivity.
Qed.

(** What the [clock_gettime] path does with the status and the pair that
    the system call hands back. *)
Lemma nni_clock_gettime_run (clk : clockid) (w : sys) (e : env_step)
      (rest : list env_step) :
  nni_clock_gettime strerror clk w (e :: rest) =
  let '(rv, out, w') := sys_clock_gettime clk w e in
  if rv =? 0 then
    let ts := stored uninit_timespec out in
    Returned (wrap64 (wrap64 (wrap64 (tv_sec ts) * 1000)
                      + Z.quot (tv_nsec ts) 1000000)) w' rest
  else Panicked ("clock_gettime failed: " ++ strerror (errno w')) w'.
Proof.
  unfold nni_clock_gettime, bind, clock_gettime, call.
  destruct (sys_clock_gettime clk w e) as [[rv out] w'].
  destruct (rv =? 0); reflexivity.
Qed.

Lemma nni_clock_gettimeofday_run (w : sys) (e : env_step)
      (rest : list env_step) :
  nni_clock_gettimeofday strerror w (e :: rest) =
  let '(rv, out, w') := sys_gettimeofday w e in
  if rv =? 0 then
    let tv := stored uninit_timeval out in
    Returned (wrap64 (wrap64 (wrap64 (TV.tv_sec tv) * 1000)
                      + Z.quot (TV.tv_usec tv) 1000)) w' rest
  else Panicked ("gettimeofday failed: " ++ strerror (errno w')) w'.
Proof.
  unfold nni_clock_gettimeofday, bind, gettimeofday, call.
  destruct (sys_gettimeofday w e) as [[rv out] w'].
  destruct (rv =? 0); reflexivity.
Qed.

Lemma nni_clock_mach_run (w : sys) (e : env_step) (rest : list env_step) :
  nni_clock_mach w (e :: rest) =
  let '(ticks, w1) := sys_mach_absolute_time w e in
  let w2 := log SysMachTimebaseInfo w1 in
  match mach_ticks_to_msec ticks (timebase w1) with
  | Some msec => Returned msec w2 rest
  | None => Undefined w2
  end.
Proof.
  unfold nni_clock_mach, bind, mach_absolute_time, mach_timebase_info, call,
    sys_mach_timebase_info.
  destruct (sys_mach_absolute_time w e) as [ticks w1].
  destruct (mach_ticks_to_msec ticks (timebase w1)); reflexivity.
Qed.

(** [uint64_t] arithmetic of the conversion, collapsed to one reduction. *)
Lemma wrap64_msec (sec frac : Z) :
  wrap64 (wrap64 (wrap64 sec * 1000) + frac) = wrap64 (sec * 1000 + frac).
Proof.
  unfold wrap64.
  rewrite Z.add_mod_idemp_l by lia.
  rewrite <- (Z.add_mod_idemp_l (sec mod 2 ^ 64 * 1000)) by lia.
  rewrite Z.mul_mod_idemp_l by lia.
  rewrite Z.add_mod_idemp_l by lia.
  reflexivity.
Qed.

Lemma wrap64_small (z : Z) : 0 <= z < 2 ^ 64 -> wrap64 z = z.
Proof. intros H. unfold wrap64. apply Z.mod_small. exact H. Qed.

(** C5: on the modern monotonic backend (the [clock_gettime] path of the
    POSIX build and of the Apple build), for the seconds/nanoseconds pair
    [ts] that the platform query returns, Clock returns
    [seconds * 1000 + nanoseconds / 1000000] in [nni_time] arithmetic;
    for a pair in the range of the type this is the exact value, with the
    nanoseconds below one millisecond cut off, not rounded. *)
Theorem nni_clock_seconds_nanoseconds
        (b : build) (clk : clockid) (w w' : sys) (e : env_step)
        (rest : list env_step) (ts : timespec) :
  time_source_of b w = ViaClockGettime clk ->
  sys_clock_gettime clk w e = (0, Some ts, w') ->
  nni_clock strerror b w (e :: rest) =
    Returned (wrap64 (tv_sec ts * 1000 + Z.quot (tv_nsec ts) 1000000))
             w' rest
  /\ (0 <= tv_sec ts -> 0 <= tv_nsec ts ->
      tv_sec ts * 1000 + tv_nsec ts / 1000000 < 2 ^ 64 ->
      let msec := tv_sec ts * 1000 + tv_nsec ts / 1000000 in
      nni_clock strerror b w (e :: rest) = Returned msec w' rest
      /\ msec * 1000000 <= ns_of_timespec ts < (msec + 1) * 1000000).
Proof.
  intros Hsrc Hsys.
  assert (Hrun : nni_clock strerror b w (e :: rest) =
                 Returned (wrap64 (tv_sec ts * 1000
                                   + Z.quot (tv_nsec ts) 1000000)) w' rest).
  { rewrite nni_clock_dispatch, Hsrc, nni_clock_gettime_run, Hsys.
    simpl. rewrite wrap64_msec. reflexivity. }
  split; [exact Hrun|].
  intros Hsec Hnsec Hmax msec.
  assert (Hq : Z.quot (tv_nsec ts) 1000000 = tv_nsec ts / 1000000)
    by (apply Z.quot_div_nonneg; lia).
  assert (Hd : 0 <= tv_nsec ts / 1000000) by (apply Z.div_pos; lia).
  pose proof (Z.div_mod (tv_nsec ts) 1000000 ltac:(lia)) as Hdm.
  pose proof (Z.mod_pos_bound (tv_nsec ts) 1000000 ltac:(lia)) as Hmb.
  split.
  - rewrite Hrun, Hq, wrap64_small by (subst msec; lia). reflexivity.
  - unfold ns_of_timespec. subst msec. lia.
Qed.

(** ** The environment leaves the rest of the system alone *)

Lemma pass_frame (e : env_step) (w : sys) :
  timebase (pass e w) = timebase w
  /\ os_10_12 (pass e w) = os_10_12 w
  /\ trace (pass e w) = trace w.
Proof. destruct e; repeat split. Qed.

Lemma wait_calls_app (l1 l2 : list syscall) :
  wait_calls (l1 ++ l2) = wait_calls l1 ++ wait_calls l2.
Proof. apply filter_app. Qed.

Lemma timebase_reads_app (l1 l2 : list syscall) :
  timebase_reads (l1 ++ l2) = (timebase_reads l1 + timebase_reads l2)%nat.
Proof. unfold timebase_reads. rewrite filter_app, length_app. reflexivity. Qed.

(** ** The tick path *)

(** C1: on the hardware-tick path the code divides the nanoseconds by ten
    million: for every tick count and scale pair (product within
    [uint64_t], nonzero denominator) Clock's conversion is one tenth of
    [ticks * numerator / denominator / 1000000], the value that the
    specification asks for. *)
Theorem mach_ticks_to_msec_tenth (ticks n d : Z) :
  0 <= ticks -> 0 <= n -> 0 < d -> ticks * n < 2 ^ 64 ->
  mach_ticks_to_msec ticks (mk_timebase n d) =
    Some (spec_ticks_to_msec ticks n d / 10).
Proof.
  intros Ht Hn Hd Hmax. unfold mach_ticks_to_msec, spec_ticks_to_msec. simpl.
  destruct (Z.eqb_spec d 0) as [E|_]; [lia|].
  rewrite wrap64_small
    by (split; [apply Z.mul_nonneg_nonneg; assumption | assumption]).
  rewrite (Z.div_div (ticks * n / d) 1000000 10) by lia.
  reflexivity.
Qed.

Lemma nni_clock_mach_frame (w : sys) (s : list env_step) (v : nni_time)
      (w' : sys) (s' : list env_step) :
  nni_clock_mach w s = Returned v w' s' ->
  timebase w' = timebase w
  /\ os_10_12 w' = os_10_12 w
  /\ trace w' = trace w ++ [SysMachAbsoluteTime; SysMachTimebaseInfo].
Proof.
  destruct s as [|e rest]; [discriminate|].
  rewrite nni_clock_mach_run. unfold sys_mach_absolute_time.
  destruct (mach_ticks_to_msec _ _); [|discriminate].
  intros H. injection H as _ <- _.
  destruct (pass_frame e w) as (Htb & Hos & Htr).
  simpl. rewrite Htb, Hos, Htr, <- app_assoc. repeat split.
Qed.

(** C6 (as the code has it): the scale factor is not cached.  Every Clock
    call that takes the tick path reads it from the platform again, and
    converts the counter with the factor that this call has just stored:
    [n] calls in a row perform [n] reads, their results are the
    conversions of the [n] counter values each by the factor read in the
    same call, and the factor the platform reports stays the same
    throughout. *)
Theorem nni_clock_reads_timebase_each_call
        (b : build) (n : nat) (w : sys) (s : list env_step)
        (ts : list nni_time) (w' : sys) (s' : list env_step) :
  time_source_of b w = ViaMach ->
  clock_n strerror b n w s = Returned ts w' s' ->
  timebase_reads (trace w') = (timebase_reads (trace w) + n)%nat
  /\ timebase w' = timebase w
  /\ List.length ts = n
  /\ mach_clock_replay w s n = Some ts
  /\ (forall t rest, ts = t :: rest ->
        exists e s1,
          s = e :: s1
          /\ denom (timebase w) <> 0
          /\ t = wrap64 (fst (sys_mach_absolute_time w e)
                         * numer (timebase w))
                 / denom (timebase w) / 10000000).
Proof.
  revert w s ts w' s'.
  induction n as [|n IH]; intros w s ts w' s' Hsrc Hrun.
  - injection Hrun as <- <- _. rewrite Nat.add_0_r.
    do 4 (split; [reflexivity|]). intros t rest H. discriminate H.
  - simpl in Hrun. unfold bind at 1 in Hrun.
    rewrite nni_clock_dispatch, Hsrc in Hrun.
    destruct (nni_clock_mach w s) as [t w1 s1| | |] eqn:E1; try discriminate.
    destruct (nni_clock_mach_frame _ _ _ _ _ E1) as (Htb & Hos & Htr).
    unfold bind at 1 in Hrun.
    destruct (clock_n strerror b n w1 s1) as [ts1 w2 s2| | |] eqn:E2;
      try discriminate.
    injection Hrun as <- <- _.
    assert (Hsrc1 : time_source_of b w1 = ViaMach).
    { destruct b as [clk|clk sdk|]; simpl in *; try discriminate.
      rewrite Hos. exact Hsrc. }
    destruct (IH _ _ _ _ _ Hsrc1 E2) as (Hr & Htb2 & Hlen & Hrep & _).
    destruct s as [|e rest]; [discriminate E1|].
    rewrite nni_clock_mach_run in E1.
    assert (Hthis : mach_ticks_to_msec (fst (sys_mach_absolute_time w e))
                      (timebase (snd (sys_mach_absolute_time w e))) = Some t
                    /\ w1 = log SysMachTimebaseInfo
                                (snd (sys_mach_absolute_time w e))
                    /\ s1 = rest).
    { destruct (sys_mach_absolute_time w e) as [ticks wA]. cbn [fst snd].
      destruct (mach_ticks_to_msec ticks (timebase wA));
        [|discriminate E1].
      injection E1 as <- <- <-. repeat split. }
    destruct Hthis as (Hconv & Hw1 & Hs1).
    assert (HtbA : timebase (snd (sys_mach_absolute_time w e)) = timebase w).
    { unfold sys_mach_absolute_time. cbn [snd log timebase].
      destruct (pass_frame e w) as (HtbP & _ & _). exact HtbP. }
    rewrite Hr, Htr, timebase_reads_app.
    change (timebase_reads [SysMachAbsoluteTime; SysMachTimebaseInfo])
      with 1%nat.
    split; [lia|]. split; [congruence|]. split; [simpl; lia|]. split.
    + cbn [mach_clock_replay]. unfold sys_mach_timebase_info.
      destruct (sys_mach_absolute_time w e) as [ticks wA].
      cbn [fst snd] in Hconv, Hw1. rewrite Hconv, <- Hw1, <- Hs1, Hrep.
      reflexivity.
    + intros t0 rest0 Heq. injection Heq as <- _.
      exists e, rest. split; [reflexivity|].
      rewrite HtbA in Hconv. unfold mach_ticks_to_msec in Hconv.
      destruct (Z.eqb_spec (denom (timebase w)) 0) as [|Hd];
        [discriminate Hconv|].
      injection Hconv as <-. split; [exact Hd | reflexivity].
Qed.

(** ** Failure of the time query *)

Lemma sys_clock_gettime_status (clk : clockid) (w : sys) (e : env_step)
      (rv : Z) (out : option timespec) (w1 : sys) :
  sys_clock_gettime clk w e = (rv, out, w1) ->
  (rv = 0 /\ exists ts, out = Some ts) \/ (rv = -1 /\ out = None).
Proof.
  unfold sys_clock_gettime.
  destruct clk, e; intros H; injection H as <- <- _; eauto.
Qed.

Lemma sys_gettimeofday_status (w : sys) (e : env_step)
      (rv : Z) (out : option TV.timeval) (w1 : sys) :
  sys_gettimeofday w e = (rv, out, w1) ->
  (rv = 0 /\ exists tv, out = Some tv) \/ (rv = -1 /\ out = None).
Proof.
  unfold sys_gettimeofday.
  destruct e; intros H; injection H as <- <- _; eauto.
Qed.

(** C7: on every backend, when the platform time query ([clock_gettime] or
    [gettimeofday]) fails, Clock returns neither a value nor an error: the
    process is aborted by [nni_panic] with a message that ends in the
    [strerror] text of the [errno] the call left; and a value that Clock
    does return was computed from what a successful query stored.  The
    query of the tick path, [mach_absolute_time], hands back the counter
    itself and has no way to report failure. *)
Theorem nni_clock_time_query_failure
        (b : build) (w : sys) (e : env_step) (rest : list env_step) :
  (forall clk rv out w1,
      time_source_of b w = ViaClockGettime clk ->
      sys_clock_gettime clk w e = (rv, out, w1) -> rv <> 0 ->
      nni_clock strerror b w (e :: rest) =
        Panicked ("clock_gettime failed: " ++ strerror (errno w1)) w1)
  /\ (forall rv out w1,
      time_source_of b w = ViaGettimeofday ->
      sys_gettimeofday w e = (rv, out, w1) -> rv <> 0 ->
      nni_clock strerror b w (e :: rest) =
        Panicked ("gettimeofday failed: " ++ strerror (errno w1)) w1)
  /\ (forall v w1 rest1,
      nni_clock strerror b w (e :: rest) = Returned v w1 rest1 ->
      match time_source_of b w with
      | ViaClockGettime clk =>
          exists ts, sys_clock_gettime clk w e = (0, Some ts, w1)
      | ViaGettimeofday =>
          exists tv, sys_gettimeofday w e = (0, Some tv, w1)
      | ViaMach =>
          exists ticks w0,
            sys_mach_absolute_time w e = (ticks, w0)
            /\ mach_ticks_to_msec ticks (timebase w0) = Some v
      end).
Proof.
  rewrite nni_clock_dispatch. split; [|split].
  - intros clk rv out w1 Hsrc Hsys Hrv.
    rewrite Hsrc, nni_clock_gettime_run, Hsys.
    destruct (Z.eqb_spec rv 0); [contradiction | reflexivity].
  - intros rv out w1 Hsrc Hsys Hrv.
    rewrite Hsrc, nni_clock_gettimeofday_run, Hsys.
    destruct (Z.eqb_spec rv 0); [contradiction | reflexivity].
  - intros v w1 rest1.
    destruct (time_source_of b w) as [clk| |].
    + rewrite nni_clock_gettime_run.
      destruct (sys_clock_gettime clk w e) as [[rv out] w'] eqn:Hsys.
      destruct (sys_clock_gettime_status _ _ _ _ _ _ Hsys)
        as [[-> [ts ->]] | [-> ->]]; simpl; [|discriminate].
      intros H. injection H as _ <- _. exists ts. reflexivity.
    + rewrite nni_clock_mach_run.
      destruct (sys_mach_absolute_time w e) as [ticks w0] eqn:Hsys.
      destruct (mach_ticks_to_msec ticks (timebase w0)) eqn:Hms;
        [|discriminate].
      intros H. injection H as <- _ _. exists ticks, w0. split; auto.
    + rewrite nni_clock_gettimeofday_run.
      destruct (sys_gettimeofday w e) as [[rv out] w'] eqn:Hsys.
      destruct (sys_gettimeofday_status _ _ _ _ _ Hsys)
        as [[-> [tv ->]] | [-> ->]]; simpl; [|discriminate].
      intros H. injection H as _ <- _. exists tv. reflexivity.
Qed.

(** ** Sleeping for no time *)

Lemma wrap64_idem (z : Z) : wrap64 (wrap64 z) = wrap64 z.
Proof. unfold wrap64. apply Z.mod_mod. lia. Qed.

Lemma wrap64_range (z : Z) : 0 <= wrap64 z < 2 ^ 64.
Proof. unfold wrap64. apply Z.mod_pos_bound. lia. Qed.

Lemma sys_gettimeofday_trace (w : sys) (e : env_step) :
  trace (snd (sys_gettimeofday w e)) = trace w ++ [SysGettimeofday].
Proof.
  unfold sys_gettimeofday.
  destruct e; simpl; try reflexivity;
    match goal with
    | |- context [pass ?e w] =>
        destruct (pass_frame e w) as (_ & _ & Htr); simpl in Htr
    end; reflexivity.
Qed.

(** C8: a zero duration makes no wait call on either strategy, and the call
    comes back at once.  The [nanosleep] version makes no system call at
    all and returns.  The [poll] version makes its one time query, finds
    the expiry already reached and returns without calling [poll] (when the
    time query fails it panics, as Clock does; with no answer to the time
    query yet, it is still in that query). *)
Theorem nni_msleep_zero (b : build) (w : sys) (s : list env_step) :
  let out := nni_msleep strerror b 0 w s in
  wait_calls (trace (sys_of out)) = wait_calls (trace w)
  /\ match b, s with
     | Gettimeofday, [] => out = Running w
     | Gettimeofday, Fail _ :: _ => exists msg w', out = Panicked msg w'
     | Gettimeofday, _ :: rest =>
         exists w', out = Returned tt w' rest
                    /\ trace w' = trace w ++ [SysGettimeofday]
     | _, _ => out = Returned tt w s
     end.
Proof.
  assert (Hnano : nni_msleep_nanosleep 0 w s = Returned tt w s).
  { unfold nni_msleep_nanosleep. destruct (List.length s); reflexivity. }
  destruct b as [clk|clk sdk|]; simpl; try (rewrite Hnano; split; reflexivity).
  unfold nni_msleep_poll, bind. simpl.
  destruct s as [|e rest]; [split; reflexivity|].
  rewrite nni_clock_gettimeofday_run.
  pose proof (sys_gettimeofday_trace w e) as Htr.
  destruct (sys_gettimeofday w e) as [[rv out] w'] eqn:Hsys. simpl in Htr.
  destruct (sys_gettimeofday_status _ _ _ _ _ Hsys)
    as [[-> [tv ->]] | [-> ->]]; simpl.
  - assert (Hloop : forall now, poll_loop strerror (List.length rest)
                      (wrap64 now) (wrap64 (wrap64 now + wrap64 0)) w' rest
                    = Returned tt w' rest).
    { intros now. change (wrap64 0) with 0.
      rewrite Z.add_0_r, wrap64_idem.
      destruct (List.length rest); simpl; rewrite Z.ltb_irrefl; reflexivity. }
    rewrite Hloop. simpl. rewrite Htr, wait_calls_app, app_nil_r.
    split; [reflexivity|].
    unfold sys_gettimeofday in Hsys.
    destruct e; try discriminate; eexists; split; reflexivity || exact Htr.
  - rewrite Htr, wait_calls_app, app_nil_r. split; [reflexivity|].
    unfold sys_gettimeofday in Hsys.
    destruct e; try discriminate. eauto.
Qed.

(** ** The [nanosleep] loop *)

Lemma timespec_of_ns_valid (n : Z) :
  0 <= n ->
  valid_request (timespec_of_ns n) = true
  /\ ns_of_timespec (timespec_of_ns n) = n.
Proof.
  intros Hn. unfold valid_request, ns_of_timespec, timespec_of_ns. simpl.
  pose proof (Z.div_mod n 1000000000 ltac:(lia)) as Hdm.
  pose proof (Z.mod_pos_bound n 1000000000 ltac:(lia)) as Hmb.
  assert (0 <= n / 1000000000) by (apply Z.div_pos; lia).
  split; [|lia].
  repeat (apply andb_true_intro; split); lia.
Qed.

(** The request that Sleep starts from (lines 100-101). *)
Lemma msleep_request (ms : nni_duration) :
  0 <= ms ->
  let ts := {| tv_sec := Z.quot ms 1000;
               tv_nsec := Z.rem ms 1000 * 1000000 |} in
  valid_request ts = true /\ ns_of_timespec ts = ms * 1000000.
Proof.
  intros Hms ts. subst ts. unfold valid_request, ns_of_timespec. simpl.
  rewrite Z.quot_div_nonneg, Z.rem_mod_nonneg by lia.
  pose proof (Z.div_mod ms 1000 ltac:(lia)) as Hdm.
  pose proof (Z.mod_pos_bound ms 1000 ltac:(lia)) as Hmb.
  assert (0 <= ms / 1000) by (apply Z.div_pos; lia).
  split; [|lia].
  repeat (apply andb_true_intro; split); lia.
Qed.

Lemma nanosleep_loop_run (fuel : nat) (ts : timespec) (w : sys)
      (e : env_step) (rest : list env_step) :
  nanosleep_loop (S fuel) ts w (e :: rest) =
  if negb (tv_sec ts =? 0) || negb (tv_nsec ts =? 0) then
    let '(rv, out, w1) := sys_nanosleep ts w e in
    if rv =? 0 then Returned tt w1 rest
    else nanosleep_loop fuel (stored ts out) w1 rest
  else Returned tt w (e :: rest).
Proof.
  simpl. destruct (negb (tv_sec ts =? 0) || negb (tv_nsec ts =? 0));
    [|reflexivity].
  unfold bind, nanosleep_in_place, call.
  destruct (sys_nanosleep ts w e) as [[rv out] w1].
  destruct (rv =? 0); reflexivity.
Qed.

Lemma sys_nanosleep_trace (ts : timespec) (w : sys) (e : env_step) :
  trace (snd (sys_nanosleep ts w e)) = trace w ++ [SysNanosleep ts].
Proof.
  unfold sys_nanosleep.
  destruct (negb (valid_request ts)); simpl.
  - destruct (pass_frame e w) as (_ & _ & ->). reflexivity.
  - destruct e; simpl; try reflexivity.
    destruct (Z.of_N elapsed <? ns_of_timespec ts); reflexivity.
Qed.

(** The loop only ever adds calls to the log. *)
Lemma nanosleep_loop_trace (fuel : nat) :
  forall ts w s,
    exists calls,
      trace (sys_of (nanosleep_loop fuel ts w s)) = trace w ++ calls.
Proof.
  induction fuel as [|fuel IH]; intros ts w s.
  - simpl. exists []. rewrite app_nil_r.
    destruct (negb (tv_sec ts =? 0) || negb (tv_nsec ts =? 0)); reflexivity.
  - destruct s as [|e rest].
    + exists []. rewrite app_nil_r. simpl.
      destruct (negb (tv_sec ts =? 0) || negb (tv_nsec ts =? 0));
        reflexivity.
    + rewrite nanosleep_loop_run.
      destruct (negb (tv_sec ts =? 0) || negb (tv_nsec ts =? 0));
        [|exists []; rewrite app_nil_r; reflexivity].
      pose proof (sys_nanosleep_trace ts w e) as Htr.
      destruct (sys_nanosleep ts w e) as [[rv out] w1]. simpl in Htr.
      destruct (rv =? 0).
      * exists [SysNanosleep ts]. exact Htr.
      * destruct (IH (stored ts out) w1 rest) as [calls Hc].
        exists (SysNanosleep ts :: calls).
        rewrite Hc, Htr, <- app_assoc. reflexivity.
Qed.

(** Sleep has no failure outcome: the loop returns or is still running. *)
Lemma nanosleep_loop_no_fault (fuel : nat) :
  forall ts w s,
    match nanosleep_loop fuel ts w s with
    | Returned _ _ _ => True
    | Running _ => True
    | Panicked _ _ => False
    | Undefined _ => False
    end.
Proof.
  induction fuel as [|fuel IH]; intros ts w s.
  - simpl. destruct (negb (tv_sec ts =? 0) || negb (tv_nsec ts =? 0)); exact I.
  - destruct s as [|e rest].
    + simpl. destruct (negb (tv_sec ts =? 0) || negb (tv_nsec ts =? 0));
        exact I.
    + rewrite nanosleep_loop_run.
      destruct (negb (tv_sec ts =? 0) || negb (tv_nsec ts =? 0)); [|exact I].
      destruct (sys_nanosleep ts w e) as [[rv out] w1].
      destruct (rv =? 0); [exact I | apply IH].
Qed.

(** One call of [nanosleep]: the time that has gone by plus what is left in
    the buffer covers the request. *)
Lemma sys_nanosleep_progress (ts : timespec) (w : sys) (e : env_step)
      (rv : Z) (out : option timespec) (w1 : sys) :
  valid_request ts = true ->
  sys_nanosleep ts w e = (rv, out, w1) ->
  let left := if rv =? 0 then 0 else ns_of_timespec (stored ts out) in
  valid_request (stored ts out) = true
  /\ mono_ns w + ns_of_timespec ts <= mono_ns w1 + left
  /\ (steps_back e = false -> tod_ns w + ns_of_timespec ts <= tod_ns w1 + left).
Proof.
  intros Hv. unfold sys_nanosleep. rewrite Hv. simpl.
  assert (Hreq : 0 <= ns_of_timespec ts).
  { unfold valid_request in Hv. unfold ns_of_timespec.
    apply andb_prop in Hv as [Hv _]. apply andb_prop in Hv as [H1 H2]. lia. }
  destruct e as [lapse|elapsed|err|delta].
  - intros H. injection H as <- <- <-. simpl. repeat split; auto; lia.
  - destruct (Z.ltb_spec (Z.of_N elapsed) (ns_of_timespec ts)) as [Hlt|Hge];
      intros H; injection H as <- <- <-; simpl.
    + destruct (timespec_of_ns_valid (ns_of_timespec ts - Z.of_N elapsed))
        as [Hv' Hns]; [lia|].
      rewrite Hns. repeat split; auto; lia.
    + repeat split; auto; lia.
  - intros H. injection H as <- <- <-. simpl. repeat split; auto; lia.
  - intros H. injection H as <- <- <-. simpl. repeat split; auto; lia.
Qed.

(** When the loop returns, at least the requested time has gone by on the
    monotonic clock, and on the time of day too unless it was set back. *)
Lemma nanosleep_loop_sleeps_enough (fuel : nat) :
  forall ts w s w' s',
    valid_request ts = true ->
    nanosleep_loop fuel ts w s = Returned tt w' s' ->
    mono_ns w + ns_of_timespec ts <= mono_ns w'
    /\ (steady s = true ->
        tod_ns w + ns_of_timespec ts <= tod_ns w' /\ steady s' = true).
Proof.
  induction fuel as [|fuel IH]; intros ts w s w' s' Hv Hrun.
  - simpl in Hrun.
    destruct (Z.eqb_spec (tv_sec ts) 0) as [Hs|]; [|discriminate].
    destruct (Z.eqb_spec (tv_nsec ts) 0) as [Hn|]; [|discriminate].
    simpl in Hrun. injection Hrun as <- <-.
    unfold ns_of_timespec. rewrite Hs, Hn. split; [lia|]. intros; split; [lia|auto].
  - destruct s as [|e rest].
    + simpl in Hrun.
      destruct (Z.eqb_spec (tv_sec ts) 0) as [Hs|]; [|discriminate].
      destruct (Z.eqb_spec (tv_nsec ts) 0) as [Hn|]; [|discriminate].
      simpl in Hrun. injection Hrun as <- <-.
      unfold ns_of_timespec. rewrite Hs, Hn. split; [lia|].
      intros; split; [lia|auto].
    + rewrite nanosleep_loop_run in Hrun.
      destruct (negb (tv_sec ts =? 0) || negb (tv_nsec ts =? 0)) eqn:Hnz.
      * destruct (sys_nanosleep ts w e) as [[rv out] w1] eqn:Hsys.
        destruct (sys_nanosleep_progress _ _ _ _ _ _ Hv Hsys)
          as (Hv1 & Hmono & Htod).
        destruct (rv =? 0).
        -- injection Hrun as <- <-. split; [lia|].
           simpl. intros Hst. apply andb_prop in Hst as [He Hrest].
           apply negb_true_iff in He. split; [specialize (Htod He); lia | exact Hrest].
        -- destruct (IH _ _ _ _ _ Hv1 Hrun) as (Hm & Ht). split; [lia|].
           simpl. intros Hst. apply andb_prop in Hst as [He Hrest].
           apply negb_true_iff in He. destruct (Ht Hrest) as [Ht1 Ht2].
           split; [specialize (Htod He); lia | exact Ht2].
      * injection Hrun as <- <-.
        apply orb_false_elim in Hnz as [Hs Hn].
        apply negb_false_iff in Hs, Hn. apply Z.eqb_eq in Hs, Hn.
        unfold ns_of_timespec. rewrite Hs, Hn. split; [lia|].
        intros; split; [lia|auto].
Qed.

(** After a call that did not return zero the buffer still holds a request:
    the one passed in, or a remainder that is not zero. *)
Lemma sys_nanosleep_leaves_request (ts : timespec) (w : sys) (e : env_step)
      (rv : Z) (out : option timespec) (w1 : sys) :
  nonzero ts = true ->
  sys_nanosleep ts w e = (rv, out, w1) ->
  rv <> 0 ->
  nonzero (stored ts out) = true.
Proof.
  intros Hnz. unfold sys_nanosleep.
  destruct (negb (valid_request ts)).
  - intros H. injection H as _ <- _. intros _. exact Hnz.
  - destruct e as [lapse|elapsed|err|delta].
    + intros H. injection H as <- _ _. intros Hrv. contradiction.
    + destruct (Z.ltb_spec (Z.of_N elapsed) (ns_of_timespec ts)) as [Hlt|Hge];
        intros H; injection H as <- <- _; intros Hrv; [|contradiction].
      destruct (timespec_of_ns_valid (ns_of_timespec ts - Z.of_N elapsed))
        as [_ Hns]; [lia|].
      unfold stored, nonzero.
      destruct (Z.eqb_spec (tv_sec (timespec_of_ns
                   (ns_of_timespec ts - Z.of_N elapsed))) 0) as [Hs|];
        [|reflexivity].
      destruct (Z.eqb_spec (tv_nsec (timespec_of_ns
                   (ns_of_timespec ts - Z.of_N elapsed))) 0) as [Hn|];
        [|reflexivity].
      unfold ns_of_timespec at 1 in Hns. rewrite Hs, Hn in Hns. lia.
    + intros H. injection H as _ <- _. intros _. exact Hnz.
    + intros H. injection H as <- _ _. intros Hrv. contradiction.
Qed.

(** [nanosleep] does not look at [errno], and neither does the loop. *)
Lemma sys_nanosleep_errno_blind (ts : timespec) (w w' : sys) (e : env_step) :
  same_but_errno w w' ->
  fst (fst (sys_nanosleep ts w e)) = fst (fst (sys_nanosleep ts w' e))
  /\ snd (fst (sys_nanosleep ts w e)) = snd (fst (sys_nanosleep ts w' e))
  /\ same_but_errno (snd (sys_nanosleep ts w e))
                    (snd (sys_nanosleep ts w' e)).
Proof.
  destruct w as [m t tb os en tr], w' as [m' t' tb' os' en' tr'].
  unfold same_but_errno. simpl. intros (<- & <- & <- & <- & <-).
  unfold sys_nanosleep.
  destruct (negb (valid_request ts)).
  - destruct e; simpl; repeat split.
  - destruct e; simpl; try (repeat split; fail).
    destruct (Z.of_N elapsed <? ns_of_timespec ts); simpl; repeat split.
Qed.

Lemma nanosleep_loop_errno_blind (fuel : nat) :
  forall ts w w' s,
    same_but_errno w w' ->
    same_outcome (nanosleep_loop fuel ts w s) (nanosleep_loop fuel ts w' s).
Proof.
  induction fuel as [|fuel IH]; intros ts w w' s Hsame.
  - simpl. destruct (negb (tv_sec ts =? 0) || negb (tv_nsec ts =? 0));
      simpl; auto.
  - destruct s as [|e rest].
    + simpl. destruct (negb (tv_sec ts =? 0) || negb (tv_nsec ts =? 0));
        simpl; auto.
    + rewrite !nanosleep_loop_run.
      destruct (negb (tv_sec ts =? 0) || negb (tv_nsec ts =? 0));
        [|simpl; auto].
      destruct (sys_nanosleep_errno_blind ts w w' e Hsame)
        as (Hrv & Hout & Hw).
      destruct (sys_nanosleep ts w e) as [[rv out] w1].
      destruct (sys_nanosleep ts w' e) as [[rv' out'] w1'].
      simpl in Hrv, Hout, Hw. subst rv' out'.
      destruct (rv =? 0); [simpl; auto|].
      apply IH. exact Hw.
Qed.

(** One turn of the loop on any buffer: a nonzero status of the system
    call, whatever its value and whatever [errno] says, sends the loop
    round again on the buffer as the call left it, and what follows is the
    same whatever [errno] the call left. *)
Lemma nanosleep_any_error_retries
        (fuel : nat) (ts : timespec) (w : sys) (e e' : env_step)
        (rest : list env_step) (rv : Z) (out : option timespec) (w1 : sys) :
  tv_sec ts <> 0 \/ tv_nsec ts <> 0 ->
  sys_nanosleep ts w e = (rv, out, w1) ->
  rv <> 0 ->
  let run := nanosleep_loop (S (S fuel)) ts w (e :: e' :: rest) in
  run = nanosleep_loop (S fuel) (stored ts out) w1 (e' :: rest)
  /\ (exists calls,
        trace (sys_of run) =
          trace w ++ SysNanosleep ts :: SysNanosleep (stored ts out) :: calls)
  /\ (forall err,
        same_outcome
          (nanosleep_loop (S fuel) (stored ts out) (set_errno err w1)
                          (e' :: rest))
          run)
  /\ (forall b ms w0 s msg w',
         b <> Gettimeofday ->
         nni_msleep strerror b ms w0 s <> Panicked msg w'
         /\ nni_msleep strerror b ms w0 s <> Undefined w').
Proof.
  intros Hnz Hsys Hrv run.
  assert (Hnzb : nonzero ts = true).
  { apply orb_true_iff. rewrite !negb_true_iff, !Z.eqb_neq. exact Hnz. }
  assert (Hrun : run = nanosleep_loop (S fuel) (stored ts out) w1
                                      (e' :: rest)).
  { unfold run. rewrite nanosleep_loop_run, Hsys. fold (nonzero ts).
    rewrite Hnzb.
    destruct (Z.eqb_spec rv 0); [contradiction | reflexivity]. }
  split; [exact Hrun|]. split; [|split].
  - pose proof (sys_nanosleep_leaves_request _ _ _ _ _ _ Hnzb Hsys Hrv)
      as Hnz1.
    pose proof (sys_nanosleep_trace ts w e) as Htr0.
    rewrite Hsys in Htr0. simpl in Htr0.
    rewrite Hrun, nanosleep_loop_run. fold (nonzero (stored ts out)).
    rewrite Hnz1.
    pose proof (sys_nanosleep_trace (stored ts out) w1 e') as Htr.
    destruct (sys_nanosleep (stored ts out) w1 e') as [[rv2 out2] w2].
    simpl in Htr.
    destruct (rv2 =? 0).
    + exists []. simpl. rewrite Htr, Htr0, <- app_assoc. reflexivity.
    + destruct (nanosleep_loop_trace fuel (stored (stored ts out) out2)
                                     w2 rest) as [calls Hc].
      exists calls. rewrite Hc, Htr, Htr0, <- !app_assoc. reflexivity.
  - intros err. rewrite Hrun.
    apply nanosleep_loop_errno_blind. repeat split.
  - intros b ms w0 s msg w' Hb.
    assert (Hm : nni_msleep strerror b ms w0 s =
                 nni_msleep_nanosleep ms w0 s)
      by (destruct b; [reflexivity | reflexivity | contradiction]).
    rewrite Hm. unfold nni_msleep_nanosleep.
    pose proof (nanosleep_loop_no_fault (List.length s)
                  {| tv_sec := Z.quot ms 1000;
                     tv_nsec := Z.rem ms 1000 * 1000000 |} w0 s) as Hnf.
    split; intros Heq; rewrite Heq in Hnf; exact Hnf.
Qed.

(** One turn of the loop on any well-formed buffer, cut short by a signal:
    the call reports the remainder and the loop goes on with it. *)
Lemma nanosleep_interrupted_resumes
        (fuel : nat) (ts : timespec) (w : sys) (elapsed : N)
        (e' : env_step) (rest : list env_step) :
  valid_request ts = true ->
  Z.of_N elapsed < ns_of_timespec ts ->
  let rem := timespec_of_ns (ns_of_timespec ts - Z.of_N elapsed) in
  let w1 := log (SysNanosleep ts)
                (set_errno EINTR (advance (Z.of_N elapsed) w)) in
  let out := nanosleep_loop (S (S fuel)) ts w
                            (Interrupt elapsed :: e' :: rest) in
  sys_nanosleep ts w (Interrupt elapsed) = (-1, Some rem, w1)
  /\ ns_of_timespec rem = ns_of_timespec ts - Z.of_N elapsed
  /\ out = nanosleep_loop (S fuel) rem w1 (e' :: rest)
  /\ (exists calls,
        trace (sys_of out) =
          trace w ++ SysNanosleep ts :: SysNanosleep rem :: calls)
  /\ (forall lapse, e' = Proceed lapse ->
        exists w2, out = Returned tt w2 rest
                   /\ mono_ns w2
                      = mono_ns w + ns_of_timespec ts + Z.of_N lapse)
  /\ (forall w' s', out = Returned tt w' s' ->
        mono_ns w + ns_of_timespec ts <= mono_ns w')
  /\ (forall msg w', out <> Panicked msg w' /\ out <> Undefined w').
Proof.
  intros Hv Hlt rem w1 out.
  destruct (timespec_of_ns_valid (ns_of_timespec ts - Z.of_N elapsed))
    as [Hvr Hns]; [lia|]. fold rem in Hvr, Hns.
  assert (Hsys : sys_nanosleep ts w (Interrupt elapsed) = (-1, Some rem, w1)).
  { unfold sys_nanosleep. rewrite Hv. simpl.
    destruct (Z.ltb_spec (Z.of_N elapsed) (ns_of_timespec ts)); [|lia].
    reflexivity. }
  assert (Hw1 : trace w1 = trace w ++ [SysNanosleep ts]) by reflexivity.
  assert (Hmono1 : mono_ns w1 = mono_ns w + Z.of_N elapsed) by reflexivity.
  clearbody w1.
  assert (Hnz : negb (tv_sec ts =? 0) || negb (tv_nsec ts =? 0) = true).
  { destruct (Z.eqb_spec (tv_sec ts) 0) as [Hs|]; [|reflexivity].
    destruct (Z.eqb_spec (tv_nsec ts) 0) as [Hn|]; [|reflexivity].
    unfold ns_of_timespec in Hlt. rewrite Hs, Hn in Hlt. lia. }
  assert (Hrem : negb (tv_sec rem =? 0) || negb (tv_nsec rem =? 0) = true).
  { destruct (Z.eqb_spec (tv_sec rem) 0) as [Hs|]; [|reflexivity].
    destruct (Z.eqb_spec (tv_nsec rem) 0) as [Hn|]; [|reflexivity].
    assert (H0 : ns_of_timespec rem = 0)
      by (unfold ns_of_timespec; rewrite Hs, Hn; reflexivity).
    lia. }
  assert (Hout : out = nanosleep_loop (S fuel) rem w1 (e' :: rest)).
  { unfold out. rewrite nanosleep_loop_run, Hnz, Hsys. reflexivity. }
  split; [exact Hsys|]. split; [exact Hns|]. split; [exact Hout|].
  split; [|split; [|split]].
  - rewrite Hout, nanosleep_loop_run, Hrem.
    pose proof (sys_nanosleep_trace rem w1 e') as Htr.
    destruct (sys_nanosleep rem w1 e') as [[rv2 out2] w2]. simpl in Htr.
    destruct (rv2 =? 0).
    + exists []. simpl. rewrite Htr, Hw1, <- app_assoc. reflexivity.
    + destruct (nanosleep_loop_trace fuel (stored rem out2) w2 rest)
        as [calls Hc].
      exists calls. rewrite Hc, Htr, Hw1, <- !app_assoc. reflexivity.
  - intros lapse ->. rewrite Hout, nanosleep_loop_run, Hrem.
    unfold sys_nanosleep. rewrite Hvr. cbn [negb].
    change (0 =? 0) with true. cbv iota. eexists. split; [reflexivity|].
    cbn [log advance mono_ns]. lia.
  - intros w' s' Hret.
    apply (nanosleep_loop_sleeps_enough _ _ _ _ _ _ Hv Hret).
  - intros msg w'.
    pose proof (nanosleep_loop_no_fault (S (S fuel)) ts w
                  (Interrupt elapsed :: e' :: rest)) as Hnf.
    fold out in Hnf.
    split; intros Heq; rewrite Heq in Hnf; exact Hnf.
Qed.

(** ** What Clock reads *)

Lemma msec_of_ns (n : Z) :
  n / 1000000000 * 1000 + (n mod 1000000000) / 1000000 = n / 1000000.
Proof.
  rewrite (Z.div_mod n 1000000000) at 3 by lia.
  replace (1000000000 * (n / 1000000000) + n mod 1000000000)
    with (n / 1000000000 * 1000 * 1000000 + n mod 1000000000) by lia.
  rewrite Z.div_add_l by lia. reflexivity.
Qed.

Lemma pass_clocks (e : env_step) (w : sys) :
  mono_ns w <= mono_ns (pass e w)
  /\ (steps_back e = false -> tod_ns w <= tod_ns (pass e w)).
Proof. destruct e; simpl; split; intros; lia. Qed.

Lemma sys_clock_gettime_ok (clk : clockid) (w : sys) (e : env_step)
      (ts : timespec) (w1 : sys) :
  sys_clock_gettime clk w e = (0, Some ts, w1) ->
  ts = timespec_of_ns (read_clock clk (pass e w))
  /\ w1 = log (SysClockGettime clk) (pass e w).
Proof.
  unfold sys_clock_gettime.
  destruct clk, e; intros H; try discriminate H;
    injection H as <- <-; split; reflexivity.
Qed.

Lemma sys_gettimeofday_ok (w : sys) (e : env_step)
      (tv : TV.timeval) (w1 : sys) :
  sys_gettimeofday w e = (0, Some tv, w1) ->
  tv = timeval_of_ns (tod_ns (pass e w))
  /\ w1 = log SysGettimeofday (pass e w).
Proof.
  unfold sys_gettimeofday.
  destruct e; intros H; try discriminate H;
    injection H as <- <-; split; reflexivity.
Qed.

(** Every normalised seconds/nanoseconds pair is one that the monotonic
    clock query can hand back. *)
Lemma sys_clock_gettime_any_pair (sec nsec : Z) (w : sys) :
  0 <= nsec < 1000000000 ->
  let w0 := mk_sys (sec * 1000000000 + nsec) (tod_ns w) (timebase w)
                   (os_10_12 w) (errno w) (trace w) in
  sys_clock_gettime CLOCK_MONOTONIC w0 (Proceed 0)
  = (0, Some (mk_timespec sec nsec),
     log (SysClockGettime CLOCK_MONOTONIC) (pass (Proceed 0) w0)).
Proof.
  intros Hn w0. unfold sys_clock_gettime, timespec_of_ns.
  cbn [pass advance read_clock mono_ns w0 Z.of_N].
  rewrite Z.add_0_r.
  rewrite (Z.add_comm (sec * 1000000000)), Z.div_add, Z.mod_add by lia.
  rewrite Z.div_small, Z.mod_small by lia.
  reflexivity.
Qed.

(** A Clock call that does not go through the tick path returns the
    millisecond count of its source after the call, in [nni_time]. *)
Lemma nni_clock_reading (b : build) (w : sys) (s : list env_step)
      (v : nni_time) (w' : sys) (s' : list env_step) :
  nni_clock strerror b w s = Returned v w' s' ->
  time_source_of b w <> ViaMach ->
  v = wrap64 (source_ns (time_source_of b w) w' / 1000000)
  /\ exists e, s = e :: s'
     /\ mono_ns w <= mono_ns w'
     /\ (steps_back e = false -> tod_ns w <= tod_ns w')
     /\ os_10_12 w' = os_10_12 w
     /\ trace w' = trace w ++ match time_source_of b w with
                              | ViaClockGettime clk => [SysClockGettime clk]
                              | _ => [SysGettimeofday]
                              end.
Proof.
  rewrite nni_clock_dispatch.
  destruct s as [|e rest].
  { destruct (time_source_of b w); discriminate. }
  destruct (pass_clocks e w) as [Hmono Htod].
  destruct (pass_frame e w) as (_ & Hos & Htr).
  destruct (time_source_of b w) as [clk| |]; intros Hrun Hsrc;
    [|contradiction|].
  - rewrite nni_clock_gettime_run in Hrun.
    destruct (sys_clock_gettime clk w e) as [[rv out] w1] eqn:Hsys.
    destruct (sys_clock_gettime_status _ _ _ _ _ _ Hsys)
      as [[-> [ts ->]] | [-> ->]]; [|discriminate Hrun].
    destruct (sys_clock_gettime_ok _ _ _ _ _ Hsys) as [-> ->].
    change (0 =? 0) with true in Hrun. cbv iota in Hrun.
    unfold stored in Hrun. injection Hrun as <- <- <-.
    rewrite wrap64_msec. unfold timespec_of_ns, tv_sec, tv_nsec.
    rewrite Z.quot_div_nonneg by (try apply Z.mod_pos_bound; lia).
    rewrite msec_of_ns. split.
    + destruct clk; reflexivity.
    + exists e. unfold log, mono_ns, tod_ns, os_10_12, trace.
      fold (mono_ns (pass e w)) (tod_ns (pass e w)) (os_10_12 (pass e w))
           (trace (pass e w)) (mono_ns w) (tod_ns w) (os_10_12 w) (trace w).
      rewrite Htr. repeat split; auto.
  - rewrite nni_clock_gettimeofday_run in Hrun.
    destruct (sys_gettimeofday w e) as [[rv out] w1] eqn:Hsys.
    destruct (sys_gettimeofday_status _ _ _ _ _ Hsys)
      as [[-> [tv ->]] | [-> ->]]; [|discriminate Hrun].
    destruct (sys_gettimeofday_ok _ _ _ _ Hsys) as [-> ->].
    change (0 =? 0) with true in Hrun. cbv iota in Hrun.
    unfold stored in Hrun. injection Hrun as <- <- <-.
    rewrite wrap64_msec. unfold timeval_of_ns, TV.tv_sec, TV.tv_usec.
    pose proof (Z.mod_pos_bound (tod_ns (pass e w)) 1000000000
                  ltac:(lia)) as Hmb.
    rewrite Z.quot_div_nonneg by (try apply Z.div_pos; lia).
    rewrite Z.div_div by lia. change (1000 * 1000) with 1000000.
    rewrite msec_of_ns. split.
    + reflexivity.
    + exists e. unfold log, mono_ns, tod_ns, os_10_12, trace.
      fold (mono_ns (pass e w)) (tod_ns (pass e w)) (os_10_12 (pass e w))
           (trace (pass e w)) (mono_ns w) (tod_ns w) (os_10_12 w) (trace w).
      rewrite Htr. repeat split; auto.
Qed.

Lemma time_source_of_frame (b : build) (w w' : sys) :
  os_10_12 w' = os_10_12 w -> time_source_of b w' = time_source_of b w.
Proof. intros H. destruct b; simpl; rewrite ?H; reflexivity. Qed.

(** The source of a Clock call moves forward over the call, unless it is a
    settable one and the environment sets it back. *)
Lemma source_advances (src : time_source) (e : env_step) (w w' : sys) :
  mono_ns w <= mono_ns w' ->
  (steps_back e = false -> tod_ns w <= tod_ns w') ->
  negb (settable src) || negb (steps_back e) = true ->
  source_ns src w <= source_ns src w'.
Proof.
  intros Hmono Htod Hst.
  destruct src as [[| |id]| |]; simpl in *; auto;
    apply Htod; apply negb_true_iff; exact Hst.
Qed.

Lemma wrap64_msec_small (n : Z) :
  0 <= n < 2 ^ 63 -> wrap64 (n / 1000000) = n / 1000000.
Proof.
  intros [H0 Hmax]. apply wrap64_small. split.
  - apply Z.div_pos; lia.
  - apply Z.div_lt_upper_bound; lia.
Qed.

(** The tick path, when nothing wraps: the tick counter is the monotonic
    clock scaled by [denom / numer], and Clock scales it back. *)
Lemma nni_clock_mach_reading (w : sys) (s : list env_step)
      (v : nni_time) (w' : sys) (s' : list env_step) :
  nni_clock_mach w s = Returned v w' s' ->
  0 < numer (timebase w) -> 0 < denom (timebase w) ->
  0 <= mono_ns w -> mono_ns w' * denom (timebase w) < 2 ^ 64 ->
  v = mono_ns w' * denom (timebase w) / numer (timebase w)
      * numer (timebase w) / denom (timebase w) / 10000000
  /\ mono_ns w <= mono_ns w'
  /\ exists e, s = e :: s'.
Proof.
  destruct s as [|e rest]; [discriminate|].
  rewrite nni_clock_mach_run. unfold sys_mach_absolute_time.
  destruct (pass_frame e w) as (Htb & _ & _).
  destruct (pass_clocks e w) as [Hmono _].
  unfold log at 1. unfold timebase at 3.
  fold (timebase (pass e w)). rewrite Htb.
  unfold log at 1. unfold mono_ns at 1. fold (mono_ns (pass e w)).
  set (m := mono_ns (pass e w)) in *.
  set (n := numer (timebase w)). set (d := denom (timebase w)).
  intros Hrun Hn Hd Hm0 Hmax.
  assert (Hw' : mono_ns w' = m /\ rest = s'
                /\ mach_ticks_to_msec (wrap64 (m * d / n)) (timebase w)
                   = Some v).
  { destruct (mach_ticks_to_msec (wrap64 (m * d / n)) (timebase w));
      [|discriminate Hrun].
    injection Hrun as <- <- <-. repeat split. }
  destruct Hw' as (Hm & <- & Hv). rewrite Hm in *.
  assert (Hmd : 0 <= m * d) by (apply Z.mul_nonneg_nonneg; lia).
  assert (Hq0 : 0 <= m * d / n) by (apply Z.div_pos; lia).
  assert (Hq1 : n * (m * d / n) <= m * d) by (apply Z.mul_div_le; lia).
  assert (Hq2 : m * d / n <= m * d) by nia.
  unfold mach_ticks_to_msec in Hv. fold d n in Hv.
  destruct (Z.eqb_spec d 0); [lia|].
  rewrite (wrap64_small (m * d / n)) in Hv by lia.
  rewrite wrap64_small in Hv by nia.
  injection Hv as <-. repeat split; [lia | eauto].
Qed.

Lemma tick_msec_mono (n d m1 m2 : Z) :
  0 < n -> 0 < d -> m1 <= m2 ->
  m1 * d / n * n / d / 10000000 <= m2 * d / n * n / d / 10000000.
Proof.
  intros Hn Hd Hm.
  apply Z.div_le_mono; [lia|].
  apply Z.div_le_mono; [lia|].
  apply Z.mul_le_mono_nonneg_r; [lia|].
  apply Z.div_le_mono; [lia|].
  apply Z.mul_le_mono_nonneg_r; lia.
Qed.

(** C2 (as the code has it): for two Clock calls in a row, [t2 >= t1]
    holds on every backend provided the source that the backend reads is
    not set back between the calls and the readings stay within the range
    of [nni_time].  The monotonic clock and the tick counter never go
    back; the time of day, which the legacy backend reads, can. *)
Theorem nni_clock_monotone
        (b : build) (w : sys) (s : list env_step) (t1 t2 : nni_time)
        (w' : sys) (s' : list env_step) :
  clock_twice strerror b w s = Returned (t1, t2) w' s' ->
  source_steady b w s = true ->
  in_range b w w' = true ->
  t1 <= t2.
Proof.
  unfold clock_twice, bind, ret, source_steady, in_range.
  destruct (nni_clock strerror b w s) as [v1 w1 s1| | |] eqn:E1;
    try discriminate.
  destruct (nni_clock strerror b w1 s1) as [v2 w2 s2| | |] eqn:E2;
    try discriminate.
  intros H. injection H as <- <- <- <-. intros Hst Hrange.
  apply andb_prop in Hrange as [Hrange Hmach].
  apply andb_prop in Hrange as [H0 Hmax].
  apply Z.leb_le in H0. apply Z.ltb_lt in Hmax.
  destruct (time_source_of b w) as [clk| |] eqn:Hsrc.
  - destruct (nni_clock_reading _ _ _ _ _ _ E1) as (Hv1 & e1 & -> & Hm1 & Ht1 & Hos1 & _);
      [congruence|].
    pose proof (time_source_of_frame b w w1 Hos1) as Hsrc1.
    destruct (nni_clock_reading _ _ _ _ _ _ E2) as (Hv2 & e2 & -> & Hm2 & Ht2 & _);
      [congruence|].
    rewrite Hsrc1, Hsrc in Hv2. rewrite Hsrc in Hv1.
    assert (Hs1 : negb (settable (ViaClockGettime clk))
                  || negb (steps_back e1) = true
                  /\ negb (settable (ViaClockGettime clk))
                     || negb (steps_back e2) = true).
    { destruct (settable (ViaClockGettime clk)); [|split; reflexivity].
      simpl in Hst. apply andb_prop in Hst as [Ha Hst].
      apply andb_prop in Hst as [Hb _]. rewrite Ha, Hb. split; reflexivity. }
    destruct Hs1 as [Hs1 Hs2].
    pose proof (source_advances _ _ _ _ Hm1 Ht1 Hs1) as Ha1.
    pose proof (source_advances _ _ _ _ Hm2 Ht2 Hs2) as Ha2.
    rewrite Hv1, Hv2, !wrap64_msec_small by lia.
    apply Z.div_le_mono; lia.
  - rewrite nni_clock_dispatch, Hsrc in E1.
    pose proof (nni_clock_mach_frame _ _ _ _ _ E1) as (Htb & Hos1 & _).
    pose proof (time_source_of_frame b w w1 Hos1) as Hsrc1.
    rewrite nni_clock_dispatch, Hsrc1, Hsrc in E2.
    apply andb_prop in Hmach as [Hmach Hwrap].
    apply andb_prop in Hmach as [Hn Hd].
    apply Z.ltb_lt in Hn, Hd, Hwrap. simpl in H0, Hmax.
    destruct (nni_clock_mach_reading _ _ _ _ _ E2) as (Hv2 & Hm2 & _);
      rewrite ?Htb; auto.
    { destruct s as [|e rest]; [discriminate E1|].
      rewrite nni_clock_mach_run in E1. unfold sys_mach_absolute_time in E1.
      destruct (mach_ticks_to_msec _ _); [|discriminate E1].
      injection E1 as _ <- _. simpl.
      destruct (pass_clocks e w) as [Hp _]. lia. }
    assert (Hm1max : mono_ns w1 * denom (timebase w) < 2 ^ 64) by nia.
    destruct (nni_clock_mach_reading _ _ _ _ _ E1) as (Hv1 & Hm1 & _); auto.
    rewrite Htb in Hv2. rewrite Hv1, Hv2.
    apply tick_msec_mono; lia.
  - destruct (nni_clock_reading _ _ _ _ _ _ E1) as (Hv1 & e1 & -> & Hm1 & Ht1 & Hos1 & _);
      [congruence|].
    pose proof (time_source_of_frame b w w1 Hos1) as Hsrc1.
    destruct (nni_clock_reading _ _ _ _ _ _ E2) as (Hv2 & e2 & -> & Hm2 & Ht2 & _);
      [congruence|].
    rewrite Hsrc1, Hsrc in Hv2. rewrite Hsrc in Hv1.
    simpl in Hst. apply andb_prop in Hst as [Ha Hst].
    apply andb_prop in Hst as [Hb _].
    apply negb_true_iff in Ha, Hb.
    specialize (Ht1 Ha). specialize (Ht2 Hb). simpl in *.
    rewrite Hv1, Hv2, !wrap64_msec_small by lia.
    apply Z.div_le_mono; lia.
Qed.

(** ** The lower bound of Sleep *)

Lemma sys_nanosleep_os (ts : timespec) (w : sys) (e : env_step) :
  os_10_12 (snd (sys_nanosleep ts w e)) = os_10_12 w.
Proof.
  unfold sys_nanosleep.
  destruct (negb (valid_request ts)); simpl.
  - destruct (pass_frame e w) as (_ & -> & _). reflexivity.
  - destruct e; simpl; try reflexivity.
    destruct (Z.of_N elapsed <? ns_of_timespec ts); reflexivity.
Qed.

Lemma nanosleep_loop_os (fuel : nat) :
  forall ts w s, os_10_12 (sys_of (nanosleep_loop fuel ts w s)) = os_10_12 w.
Proof.
  induction fuel as [|fuel IH]; intros ts w s.
  - simpl. destruct (negb (tv_sec ts =? 0) || negb (tv_nsec ts =? 0));
      reflexivity.
  - destruct s as [|e rest].
    + simpl. destruct (negb (tv_sec ts =? 0) || negb (tv_nsec ts =? 0));
        reflexivity.
    + rewrite nanosleep_loop_run.
      destruct (negb (tv_sec ts =? 0) || negb (tv_nsec ts =? 0));
        [|reflexivity].
      pose proof (sys_nanosleep_os ts w e) as Hos.
      destruct (sys_nanosleep ts w e) as [[rv out] w1]. simpl in Hos.
      destruct (rv =? 0); [exact Hos|].
      rewrite IH. exact Hos.
Qed.

Lemma sys_poll_clocks (nfds timeout : Z) (w : sys) (e : env_step)
      (rv : Z) (w1 : sys) :
  sys_poll nfds timeout w e = Some (rv, w1) ->
  mono_ns w <= mono_ns w1
  /\ (steps_back e = false -> tod_ns w <= tod_ns w1)
  /\ trace w1 = trace w ++ [SysPoll nfds timeout].
Proof.
  unfold sys_poll.
  destruct e as [lapse|elapsed|err|delta].
  - destruct (Z.ltb_spec timeout 0) as [Hneg|Hpos]; [discriminate|].
    intros H. injection H as _ <-. simpl. repeat split; intros; lia.
  - destruct ((timeout <? 0) || (Z.of_N elapsed <? timeout * 1000000));
      intros H; injection H as _ <-; simpl; repeat split; intros; lia.
  - intros H. injection H as _ <-. simpl. repeat split; intros; lia.
  - destruct (Z.ltb_spec timeout 0) as [Hneg|Hpos]; [discriminate|].
    intros H. injection H as _ <-. simpl. repeat split; intros; lia.
Qed.

Lemma poll_loop_run (fuel : nat) (now expire : nni_time) (w : sys)
      (e : env_step) (rest : list env_step) :
  poll_loop strerror (S fuel) now expire w (e :: rest) =
  if now <? expire then
    match sys_poll 0 (to_int (wrap64 (expire - now))) w e with
    | Some (_, w1) =>
        match nni_clock strerror Gettimeofday w1 rest with
        | Returned now1 w2 rest2 =>
            poll_loop strerror fuel now1 expire w2 rest2
        | Panicked msg w2 => Panicked msg w2
        | Undefined w2 => Undefined w2
        | Running w2 => Running w2
        end
    | None =>
        Running (log (SysPoll 0 (to_int (wrap64 (expire - now)))) w)
    end
  else Returned tt w (e :: rest).
Proof.
  cbn [poll_loop]. destruct (now <? expire); [|reflexivity].
  unfold bind at 1. unfold poll.
  destruct (sys_poll 0 (to_int (wrap64 (expire - now))) w e)
    as [[rv w1]|]; reflexivity.
Qed.

Lemma wrap64_le (z : Z) : 0 <= z -> wrap64 z <= z.
Proof. intros H. unfold wrap64. apply Z.mod_le; lia. Qed.

(** The [poll] loop leaves only once a reading of the time of day has
    reached the expiry. *)
Lemma poll_loop_reaches_expiry (fuel : nat) :
  forall now expire w s w' s',
    poll_loop strerror fuel now expire w s = Returned tt w' s' ->
    steady s = true ->
    0 <= tod_ns w ->
    now <= tod_ns w / 1000000 ->
    expire <= tod_ns w' / 1000000
    /\ tod_ns w <= tod_ns w'
    /\ steady s' = true.
Proof.
  induction fuel as [|fuel IH]; intros now expire w s w' s' Hrun Hst H0 Hnow.
  - simpl in Hrun. destruct (Z.ltb_spec now expire); [discriminate|].
    injection Hrun as <- <-. repeat split; auto; lia.
  - destruct s as [|e rest].
    + simpl in Hrun. destruct (Z.ltb_spec now expire); [discriminate|].
      injection Hrun as <- <-. repeat split; auto; lia.
    + rewrite poll_loop_run in Hrun.
      destruct (Z.ltb_spec now expire).
      * destruct (sys_poll 0 _ w e) as [[rv w1]|] eqn:Hpoll;
          [|discriminate].
        destruct (sys_poll_clocks _ _ _ _ _ _ Hpoll) as (_ & Ht1 & _).
        simpl in Hst. apply andb_prop in Hst as [He Hrest].
        apply negb_true_iff in He. specialize (Ht1 He).
        destruct (nni_clock strerror Gettimeofday w1 rest)
          as [now1 w2 rest2| | |] eqn:Hclk; try discriminate.
        destruct (nni_clock_reading _ _ _ _ _ _ Hclk)
          as (Hv & e2 & -> & _ & Ht2 & _); [discriminate|].
        simpl in Hrest. apply andb_prop in Hrest as [He2 Hrest2].
        apply negb_true_iff in He2. specialize (Ht2 He2).
        simpl in Hv.
        assert (Hn1 : now1 <= tod_ns w2 / 1000000).
        { rewrite Hv. apply wrap64_le. apply Z.div_pos; lia. }
        destruct (IH _ _ _ _ _ _ Hrun Hrest2 ltac:(lia) Hn1)
          as (Hexp & Ht3 & Hst3).
        repeat split; auto; lia.
      * injection Hrun as <- <-. repeat split; auto; lia.
Qed.

Lemma steady_tail (e : env_step) (s : list env_step) :
  steady (e :: s) = true -> steps_back e = false /\ steady s = true.
Proof.
  simpl. intros H. apply andb_prop in H as [He Hs].
  apply negb_true_iff in He. auto.
Qed.

(** Over a Sleep that returns, a source that is not set back moves forward
    by at least the duration, counted in whole milliseconds. *)
Lemma nni_msleep_source_bound (b : build) (d : nni_duration) (w : sys)
      (s : list env_step) (w' : sys) (s' : list env_step) :
  nni_msleep strerror b d w s = Returned tt w' s' ->
  0 <= d < 2 ^ 31 ->
  time_source_of b w <> ViaMach ->
  source_steady b w s = true ->
  0 <= source_ns (time_source_of b w) w ->
  source_ns (time_source_of b w) w <= source_ns (time_source_of b w) w'
  /\ source_steady b w s' = true
  /\ time_source_of b w' = time_source_of b w
  /\ (source_ns (time_source_of b w) w' < 2 ^ 63 ->
      source_ns (time_source_of b w) w / 1000000 + d
      <= source_ns (time_source_of b w) w' / 1000000).
Proof.
  intros Hrun Hd Hsrc Hst H0.
  assert (Hnano : forall clk,
            time_source_of b w = ViaClockGettime clk ->
            nni_msleep_nanosleep d w s = Returned tt w' s' ->
            source_ns (ViaClockGettime clk) w
              <= source_ns (ViaClockGettime clk) w'
            /\ source_steady b w s' = true
            /\ time_source_of b w' = time_source_of b w
            /\ (source_ns (ViaClockGettime clk) w' < 2 ^ 63 ->
                source_ns (ViaClockGettime clk) w / 1000000 + d
                <= source_ns (ViaClockGettime clk) w' / 1000000)).
  { intros clk Hclk Hloop. unfold nni_msleep_nanosleep in Hloop.
    destruct (msleep_request d ltac:(lia)) as [Hv Hns].
    pose proof (nanosleep_loop_os (List.length s)
                  {| tv_sec := Z.quot d 1000;
                     tv_nsec := Z.rem d 1000 * 1000000 |} w s) as Hos.
    rewrite Hloop in Hos. simpl in Hos.
    apply (time_source_of_frame b) in Hos.
    destruct (nanosleep_loop_sleeps_enough _ _ _ _ _ _ Hv Hloop)
      as [Hmono Htod].
    rewrite Hns in Hmono, Htod.
    unfold source_steady in *. rewrite Hclk in *.
    assert (Hcases : (settable (ViaClockGettime clk) = false
                      /\ source_ns (ViaClockGettime clk) w = mono_ns w
                      /\ source_ns (ViaClockGettime clk) w' = mono_ns w')
                     \/ (steady s = true
                         /\ source_ns (ViaClockGettime clk) w = tod_ns w
                         /\ source_ns (ViaClockGettime clk) w' = tod_ns w')).
    { destruct clk; simpl in *; auto. }
    destruct Hcases as [(Hset & -> & ->) | (Hs & -> & ->)].
    - rewrite Hset. simpl. repeat split; auto; try lia.
      intros _.
      replace (mono_ns w / 1000000 + d)
        with ((mono_ns w + d * 1000000) / 1000000)
        by (rewrite Z.div_add by lia; reflexivity).
      apply Z.div_le_mono; lia.
    - destruct (Htod Hs) as [Ht Hs'].
      rewrite Hs', orb_true_r. repeat split; auto; try lia.
      intros _.
      replace (tod_ns w / 1000000 + d)
        with ((tod_ns w + d * 1000000) / 1000000)
        by (rewrite Z.div_add by lia; reflexivity).
      apply Z.div_le_mono; lia. }
  destruct b as [clk|clk sdk|].
  - simpl in *. apply (Hnano clk); auto.
  - destruct (time_source_of (Apple clk sdk) w) as [clk'| |] eqn:Hs;
      [|contradiction|].
    + apply (Hnano clk'); auto.
    + simpl in Hs. destruct (sdk && os_10_12 w); discriminate.
  - clear Hnano. cbn [time_source_of source_ns nni_msleep] in *.
    unfold source_steady in *. cbn [time_source_of settable negb orb] in *.
    unfold nni_msleep_poll, bind in Hrun.
    destruct (nni_clock strerror Gettimeofday w s)
      as [now0 wa sa| | |] eqn:Hclk; try discriminate.
    destruct (nni_clock_reading _ _ _ _ _ _ Hclk)
      as (Hv & e1 & -> & _ & Ht1 & Hos1 & _); [discriminate|].
    cbn [time_source_of source_ns] in Hv.
    destruct (steady_tail _ _ Hst) as [He1 Hsa]. specialize (Ht1 He1).
    assert (Hn0 : now0 <= tod_ns wa / 1000000).
    { rewrite Hv. apply wrap64_le. apply Z.div_pos; lia. }
    destruct (poll_loop_reaches_expiry _ _ _ _ _ _ _ Hrun Hsa
                ltac:(lia) Hn0) as (Hexp & Ht2 & Hs').
    split; [lia|]. split; [exact Hs'|]. split.
    + reflexivity.
    + intros Hmax.
      rewrite wrap64_msec_small in Hv by lia.
      assert (Hq : tod_ns wa / 1000000 < 2 ^ 63).
      { apply Z.div_lt_upper_bound; lia. }
      rewrite (wrap64_small d) in Hexp by lia.
      assert (Hq0 : 0 <= tod_ns wa / 1000000) by (apply Z.div_pos; lia).
      rewrite wrap64_small in Hexp by lia.
      assert (tod_ns w / 1000000 <= tod_ns wa / 1000000)
        by (apply Z.div_le_mono; lia).
      lia.
Qed.

Lemma source_steady_tail (b : build) (w w1 : sys) (e : env_step)
      (s : list env_step) :
  source_steady b w (e :: s) = true ->
  time_source_of b w1 = time_source_of b w ->
  negb (settable (time_source_of b w)) || negb (steps_back e) = true
  /\ source_steady b w1 s = true.
Proof.
  unfold source_steady. intros Hst ->.
  destruct (settable (time_source_of b w)); [|split; reflexivity].
  simpl in *. apply andb_prop in Hst as [He Hs]. rewrite He, Hs.
  split; reflexivity.
Qed.

(** C3 (as the code has it): for every non-negative duration [d], when the
    source that Clock reads is not set back during the sequence, the
    readings stay in the range of [nni_time] and Clock does not take the
    tick path, the sequence [before = now(); sleep(d); after = now()]
    ends with [after - before >= d], on the [nanosleep] strategy and on
    the [poll] strategy alike, whatever interruptions and early returns
    the waits go through. *)
Theorem nni_msleep_lower_bound
        (b : build) (d : nni_duration) (w : sys) (s : list env_step)
        (before after : nni_time) (w' : sys) (s' : list env_step) :
  timed_sleep strerror b d w s = Returned (before, after) w' s' ->
  0 <= d < 2 ^ 31 ->
  time_source_of b w <> ViaMach ->
  source_steady b w s = true ->
  in_range b w w' = true ->
  before + d <= after.
Proof.
  unfold timed_sleep, bind, ret, in_range.
  destruct (nni_clock strerror b w s) as [v1 w1 s1| | |] eqn:E1;
    try discriminate.
  destruct (nni_msleep strerror b d w1 s1) as [[] w2 s2| | |] eqn:E2;
    try discriminate.
  destruct (nni_clock strerror b w2 s2) as [v3 w3 s3| | |] eqn:E3;
    try discriminate.
  intros H. injection H as <- <- <- <-. intros Hd Hsrc Hst Hrange.
  apply andb_prop in Hrange as [Hrange _].
  apply andb_prop in Hrange as [H0 Hmax].
  apply Z.leb_le in H0. apply Z.ltb_lt in Hmax.
  set (src := time_source_of b w) in *.
  destruct (nni_clock_reading _ _ _ _ _ _ E1 Hsrc)
    as (Hv1 & e1 & -> & Hm1 & Ht1 & Hos1 & _).
  pose proof (time_source_of_frame b w w1 Hos1) as Hsrc1. fold src in Hsrc1.
  destruct (source_steady_tail _ _ _ _ _ Hst Hsrc1) as [Hs1 Hst1].
  fold src in Hs1, Hv1.
  pose proof (source_advances _ _ _ _ Hm1 Ht1 Hs1) as Ha1.
  destruct (nni_msleep_source_bound _ _ _ _ _ _ E2 Hd)
    as (Ha2 & Hst2 & Hsrc2 & Hbound);
    rewrite ?Hsrc1; auto; [lia|].
  rewrite Hsrc1 in Hsrc2, Ha2, Hbound.
  destruct (nni_clock_reading _ _ _ _ _ _ E3)
    as (Hv3 & e3 & -> & Hm3 & Ht3 & Hos3 & _);
    [rewrite Hsrc2; exact Hsrc|].
  rewrite Hsrc2 in Hv3.
  assert (Hsrc3 : time_source_of b w2 = time_source_of b w1)
    by (rewrite Hsrc1; exact Hsrc2).
  destruct (source_steady_tail b w1 w2 e3 s3 Hst2 Hsrc3) as [Hs3 _].
  rewrite Hsrc1 in Hs3.
  pose proof (source_advances _ _ _ _ Hm3 Ht3 Hs3) as Ha3.
  specialize (Hbound ltac:(lia)).
  rewrite Hv1, Hv3, !wrap64_msec_small by lia.
  assert (source_ns src w2 / 1000000 <= source_ns src w3 / 1000000)
    by (apply Z.div_le_mono; lia).
  lia.
Qed.

(** C10 (as the code has it): in the [poll] version, for a negative
    duration [d] whose size does not exceed the current reading [now] of
    Clock, the expiry [now + d] does not wrap and lies before [now]; the
    loop body is never entered and Sleep returns right after its time
    query, without any wait call. *)
Theorem nni_msleep_poll_negative
        (ms : nni_duration) (w : sys) (s : list env_step) (now : nni_time)
        (w1 : sys) (s1 : list env_step) :
  nni_clock strerror Gettimeofday w s = Returned now w1 s1 ->
  ms < 0 ->
  - ms <= now ->
  wrap64 (now + wrap64 ms) = now + ms
  /\ now + ms < now
  /\ nni_msleep strerror Gettimeofday ms w s = Returned tt w1 s1
  /\ wait_calls (trace w1) = wait_calls (trace w).
Proof.
  intros Hclk Hms Hnow.
  destruct (nni_clock_reading _ _ _ _ _ _ Hclk)
    as (Hv & e & -> & _ & _ & _ & Htr); [discriminate|].
  cbn [time_source_of] in Htr.
  pose proof (wrap64_range (source_ns (time_source_of Gettimeofday w) w1
                            / 1000000)) as Hr.
  rewrite <- Hv in Hr.
  assert (Hexp : wrap64 (now + wrap64 ms) = now + ms).
  { unfold wrap64. rewrite Z.add_mod_idemp_r by lia.
    apply Z.mod_small. lia. }
  split; [exact Hexp|]. split; [lia|]. split.
  - cbn [nni_msleep]. unfold nni_msleep_poll, bind. rewrite Hclk, Hexp.
    destruct (List.length s1); cbn [poll_loop];
      destruct (Z.ltb_spec now (now + ms)); try lia; reflexivity.
  - rewrite Htr, wait_calls_app, app_nil_r. reflexivity.
Qed.

(** ** The loops stop for want of script, never for want of fuel *)

Lemma nanosleep_loop_fuel (fuel : nat) :
  forall ts w s,
    (List.length s <= fuel)%nat ->
    nanosleep_loop fuel ts w s = nanosleep_loop (List.length s) ts w s.
Proof.
  induction fuel as [|fuel IH]; intros ts w s Hlen.
  - destruct s; [reflexivity | simpl in Hlen; lia].
  - destruct s as [|e rest].
    + simpl. destruct (negb (tv_sec ts =? 0) || negb (tv_nsec ts =? 0));
        reflexivity.
    + change (List.length (e :: rest)) with (S (List.length rest)).
      rewrite !nanosleep_loop_run.
      destruct (negb (tv_sec ts =? 0) || negb (tv_nsec ts =? 0));
        [|reflexivity].
      destruct (sys_nanosleep ts w e) as [[rv out] w1].
      destruct (rv =? 0); [reflexivity|].
      apply IH. simpl in Hlen. lia.
Qed.

Lemma poll_loop_fuel (fuel : nat) :
  forall fuel' now expire w s,
    (List.length s <= fuel)%nat ->
    (List.length s <= fuel')%nat ->
    poll_loop strerror fuel now expire w s
    = poll_loop strerror fuel' now expire w s.
Proof.
  induction fuel as [|fuel IH]; intros fuel' now expire w s Hlen Hlen'.
  - destruct s; [|simpl in Hlen; lia].
    destruct fuel'; simpl; destruct (now <? expire); reflexivity.
  - destruct s as [|e rest].
    + destruct fuel'; simpl; destruct (now <? expire); reflexivity.
    + destruct fuel' as [|fuel']; [simpl in Hlen'; lia|].
      rewrite !poll_loop_run.
      destruct (now <? expire); [|reflexivity].
      destruct (sys_poll 0 _ w e) as [[rv w1]|]; [|reflexivity].
      destruct (nni_clock strerror Gettimeofday w1 rest)
        as [now1 w2 rest2| | |] eqn:Hclk; try reflexivity.
      destruct (nni_clock_reading _ _ _ _ _ _ Hclk)
        as (_ & e2 & -> & _); [discriminate|].
      simpl in Hlen, Hlen'. apply IH; lia.
Qed.

End ClockProperties.

(** * The properties on sample runs *)

(** Thirty million ticks of one nanosecond are thirty milliseconds; the
    tick path returns three. *)
Lemma mach_ticks_to_msec_tenth_run :
  mach_ticks_to_msec 30000000 (mk_timebase 1 1) = Some 3
  /\ spec_ticks_to_msec 30000000 1 1 = 30.
Proof.
  split; [|reflexivity].
  rewrite (mach_ticks_to_msec_tenth 30000000 1 1); [reflexivity | lia ..].
Defined.

(** The legacy build, the time of day set back by five seconds between two
    Clock calls: the second reading is below the first. *)
Lemma clock_legacy_runs_backwards :
  result_of (clock_twice strerror_sample Gettimeofday sys_sample
                         [Proceed 0; Adjust (-5000000000)])
  = Some (1700000000000, 1699999995000)
  /\ 1699999995000 < 1700000000000.
Proof. split; reflexivity. Qed.

(** The legacy build again, the time of day stepped forward in between. *)
Lemma nni_clock_monotone_run :
  source_steady Gettimeofday sys_sample [Proceed 1234567; Adjust 2000000]
  = true
  /\ 1700000000001 <= 1700000000003.
Proof.
  split; [reflexivity|].
  eapply (nni_clock_monotone strerror_sample Gettimeofday sys_sample
            [Proceed 1234567; Adjust 2000000]); reflexivity.
Defined.

(** The legacy build: a sleep of 5 ms during which [poll] waits its full
    time, and the time of day set back by 3 ms before the closing Clock
    call: the two readings are 2 ms apart. *)
Lemma sleep_bound_lost_when_clock_set_back :
  result_of (timed_sleep strerror_sample Gettimeofday 5 sys_sample
               [Proceed 0; Proceed 0; Proceed 0; Proceed 0;
                Adjust (-3000000)])
  = Some (1700000000000, 1700000000002)
  /\ 1700000000002 - 1700000000000 < 5.
Proof. split; reflexivity. Qed.

(** A sleep of 1.5 s on the monotonic clock, interrupted twice and failed
    once before it completes. *)
Lemma nni_msleep_lower_bound_run :
  result_of (timed_sleep strerror_sample (Posix CLOCK_MONOTONIC) 1500
               sys_sample
               [Proceed 0; Interrupt 700000000; Fail 5; Interrupt 1;
                Proceed 10; Proceed 0])
  = Some (5000, 6500)
  /\ 5000 + 1500 <= 6500.
Proof.
  split; [reflexivity|].
  eapply (nni_msleep_lower_bound strerror_sample (Posix CLOCK_MONOTONIC)
            1500 sys_sample
            [Proceed 0; Interrupt 700000000; Fail 5; Interrupt 1;
             Proceed 10; Proceed 0]);
    [reflexivity | lia | discriminate | reflexivity | reflexivity].
Defined.

(** A request of 1.5 s interrupted after 0.7 s goes on with 0.8 s. *)
Lemma nanosleep_interrupted_resumes_run :
  nanosleep_loop 2 (mk_timespec 1 500000000) sys_sample
                 [Interrupt 700000000; Proceed 0]
  = nanosleep_loop 1 (mk_timespec 0 800000000)
      (log (SysNanosleep (mk_timespec 1 500000000))
           (set_errno EINTR (advance 700000000 sys_sample)))
      [Proceed 0].
Proof.
  exact (proj1 (proj2 (proj2
           (nanosleep_interrupted_resumes 0 (mk_timespec 1 500000000)
              sys_sample 700000000 (Proceed 0) [] eq_refl eq_refl)))).
Defined.

(** 5 s and 1999999 ns read as 5001 ms: cut off, not rounded. *)
Lemma nni_clock_seconds_nanoseconds_run :
  nni_clock strerror_sample (Posix CLOCK_MONOTONIC) sys_sample
            [Proceed 1999999]
  = Returned 5001
      (log (SysClockGettime CLOCK_MONOTONIC) (advance 1999999 sys_sample))
      [].
Proof.
  destruct (nni_clock_seconds_nanoseconds strerror_sample
              (Posix CLOCK_MONOTONIC) CLOCK_MONOTONIC sys_sample
              (log (SysClockGettime CLOCK_MONOTONIC)
                   (advance 1999999 sys_sample))
              (Proceed 1999999) [] (mk_timespec 5 1999999)
              eq_refl eq_refl) as [_ H].
  destruct H as [H _]; [simpl; lia ..|]. exact H.
Defined.

(** Two Clock calls on the tick path: the scale factor is read twice. *)
Lemma timebase_read_again_on_second_call :
  timebase_reads
    (trace (sys_of (clock_twice strerror_sample (Apple CLOCK_MONOTONIC false)
                                sys_sample [Proceed 0; Proceed 0])))
  = 2%nat.
Proof. reflexivity. Qed.

(** An Apple build with the 10.12 SDK on an older system: three Clock calls,
    three reads of the scale factor, each result converted by the factor
    read in the same call. *)
Lemma nni_clock_reads_timebase_each_call_run :
  timebase_reads
    (trace (sys_of (clock_n strerror_sample (Apple CLOCK_MONOTONIC true) 3
                            sys_sample [Proceed 0; Proceed 5; Proceed 0])))
  = 3%nat
  /\ mach_clock_replay sys_sample [Proceed 0; Proceed 5; Proceed 0] 3
     = Some [500; 500; 500]
  /\ clock_n strerror_sample (Apple CLOCK_MONOTONIC true) 3
             sys_sample [Proceed 0; Proceed 5; Proceed 0]
     = Returned [500; 500; 500]
         (sys_of (clock_n strerror_sample (Apple CLOCK_MONOTONIC true) 3
                          sys_sample [Proceed 0; Proceed 5; Proceed 0]))
         [].
Proof.
  assert (Hsrc : time_source_of (Apple CLOCK_MONOTONIC true) sys_sample
                 = ViaMach) by reflexivity.
  assert (Hrun : clock_n strerror_sample (Apple CLOCK_MONOTONIC true) 3
                         sys_sample [Proceed 0; Proceed 5; Proceed 0]
                 = Returned [500; 500; 500]
                     (sys_of (clock_n strerror_sample
                                (Apple CLOCK_MONOTONIC true) 3
                                sys_sample [Proceed 0; Proceed 5; Proceed 0]))
                     [])
    by (vm_compute; reflexivity).
  destruct (nni_clock_reads_timebase_each_call strerror_sample
              (Apple CLOCK_MONOTONIC true) 3 sys_sample
              [Proceed 0; Proceed 5; Proceed 0] _ _ _ Hsrc Hrun)
    as (Hreads & _ & _ & Hreplay & _).
  split; [exact Hreads|]. split; [exact Hreplay | exact Hrun].
Defined.

(** [clock_gettime] failing with [EPERM]. *)
Lemma nni_clock_time_query_failure_run :
  nni_clock strerror_sample (Posix CLOCK_MONOTONIC) sys_sample [Fail 1]
  = Panicked "clock_gettime failed: Operation not permitted"
      (log (SysClockGettime CLOCK_MONOTONIC) (set_errno 1 sys_sample)).
Proof.
  apply (proj1 (nni_clock_time_query_failure strerror_sample
                  (Posix CLOCK_MONOTONIC) sys_sample (Fail 1) [])
           CLOCK_MONOTONIC (-1) None
           (log (SysClockGettime CLOCK_MONOTONIC) (set_errno 1 sys_sample)));
    [reflexivity | reflexivity | lia].
Defined.

(** [nanosleep] failing with [EIO]: the same request is tried again. *)
Lemma nanosleep_any_error_retries_run :
  nanosleep_loop 2 (mk_timespec 1 500000000) sys_sample [Fail 5; Proceed 0]
  = nanosleep_loop 1 (stored (mk_timespec 1 500000000) None)
      (log (SysNanosleep (mk_timespec 1 500000000)) (set_errno 5 sys_sample))
      [Proceed 0].
Proof.
  assert (Hnz : tv_sec (mk_timespec 1 500000000) <> 0
                \/ tv_nsec (mk_timespec 1 500000000) <> 0)
    by (left; discriminate).
  assert (Hsys : sys_nanosleep (mk_timespec 1 500000000) sys_sample (Fail 5)
                 = (-1, None,
                    log (SysNanosleep (mk_timespec 1 500000000))
                        (set_errno 5 sys_sample)))
    by reflexivity.
  destruct (nanosleep_any_error_retries strerror_sample 0
              (mk_timespec 1 500000000) sys_sample (Fail 5) (Proceed 0) []
              (-1) None _ Hnz Hsys) as [H _]; [discriminate|].
  exact H.
Defined.

(** The legacy build with the time of day at the epoch and a duration of
    -1: the expiry wraps to 2^64 - 1 and [poll] is called, with timeout -1. *)
Lemma negative_sleep_near_epoch_waits :
  result_of (nni_clock strerror_sample Gettimeofday (sys_tick 0) [Proceed 0])
  = Some 0
  /\ wrap64 (0 + wrap64 (-1)) = 18446744073709551615
  /\ wait_calls
       (trace (sys_of (nni_msleep strerror_sample Gettimeofday (-1)
                                  (sys_tick 0) [Proceed 0; Proceed 0])))
     = [SysPoll 0 (-1)].
Proof. repeat split. Qed.

(** The same duration with the time of day well past the epoch. *)
Lemma nni_msleep_poll_negative_run :
  nni_msleep strerror_sample Gettimeofday (-1) sys_sample [Proceed 0]
  = Returned tt (log SysGettimeofday sys_sample) [].
Proof.
  refine (proj1 (proj2 (proj2
            (nni_msleep_poll_negative strerror_sample (-1) sys_sample
               [Proceed 0] 1700000000000 (log SysGettimeofday sys_sample) []
               eq_refl _ _)))); lia.
Defined.

(** Two more runs.  On the tick path ten milliseconds of sleep read as one,
    an effect of the divisor of line 62.  On the [poll] strategy a sleep of
    one millisecond that starts late in a millisecond of the time of day is
    over once the next millisecond begins. *)
Example sleep_reads_short_on_tick_path :
  result_of (timed_sleep strerror_sample (Apple CLOCK_MONOTONIC false) 10
               (sys_tick 0) [Proceed 0; Proceed 0; Proceed 0])
  = Some (0, 1).
Proof. reflexivity. Qed.

Example poll_sleep_within_the_millisecond :
  let w := mk_sys 0 900000 (mk_timebase 1 1) false 0 [] in
  let out := nni_msleep strerror_sample Gettimeofday 1 w
               [Proceed 0; Interrupt 100000; Proceed 0] in
  result_of out = Some tt /\ mono_ns (sys_of out) - mono_ns w = 100000.
Proof. split; reflexivity. Qed.

(** * Further properties of Clock and Sleep *)

Section MoreProperties.

Variable strerror : Z -> string.

(** ** The legacy conversion *)

(** X1: the [gettimeofday] version of Clock returns
    [seconds * 1000 + microseconds / 1000] of the pair the call stored, in
    [nni_time] arithmetic; for a pair in the range of the type this is the
    exact value, the microseconds below one millisecond cut off. *)
Theorem nni_clock_seconds_microseconds
        (w w' : sys) (e : env_step) (rest : list env_step)
        (tv : TV.timeval) :
  sys_gettimeofday w e = (0, Some tv, w') ->
  nni_clock strerror Gettimeofday w (e :: rest) =
    Returned (wrap64 (TV.tv_sec tv * 1000 + Z.quot (TV.tv_usec tv) 1000))
             w' rest
  /\ (0 <= TV.tv_sec tv -> 0 <= TV.tv_usec tv ->
      TV.tv_sec tv * 1000 + TV.tv_usec tv / 1000 < 2 ^ 64 ->
      let ms := TV.tv_sec tv * 1000 + TV.tv_usec tv / 1000 in
      nni_clock strerror Gettimeofday w (e :: rest) = Returned ms w' rest
      /\ ms * 1000 <= TV.tv_sec tv * 1000000 + TV.tv_usec tv
                   < (ms + 1) * 1000).
Proof.
  intros Hsys.
  assert (Hrun : nni_clock strerror Gettimeofday w (e :: rest) =
                 Returned (wrap64 (TV.tv_sec tv * 1000
                                   + Z.quot (TV.tv_usec tv) 1000)) w' rest).
  { cbn [nni_clock]. rewrite nni_clock_gettimeofday_run, Hsys.
    change (0 =? 0) with true. cbv iota. unfold stored.
    rewrite wrap64_msec. reflexivity. }
  split; [exact Hrun|].
  intros Hsec Husec Hmax ms.
  assert (Hq : Z.quot (TV.tv_usec tv) 1000 = TV.tv_usec tv / 1000)
    by (apply Z.quot_div_nonneg; lia).
  assert (Hd : 0 <= TV.tv_usec tv / 1000) by (apply Z.div_pos; lia).
  pose proof (Z.div_mod (TV.tv_usec tv) 1000 ltac:(lia)) as Hdm.
  pose proof (Z.mod_pos_bound (TV.tv_usec tv) 1000 ltac:(lia)) as Hmb.
  split.
  - rewrite Hrun, Hq, wrap64_small by (subst ms; lia). reflexivity.
  - subst ms. lia.
Qed.

(** ** The [nanosleep] version of Sleep *)

Lemma nni_msleep_is_loop (b : build) (ms : nni_duration) (w : sys)
      (s : list env_step) :
  b <> Gettimeofday ->
  nni_msleep strerror b ms w s
  = nanosleep_loop (List.length s) (msleep_timespec ms) w s.
Proof. destruct b; intros Hb; [reflexivity | reflexivity | contradiction]. Qed.

Lemma msleep_timespec_nonneg (ms : nni_duration) :
  0 <= ms ->
  msleep_timespec ms = mk_timespec (ms / 1000) (ms mod 1000 * 1000000)
  /\ valid_request (msleep_timespec ms) = true
  /\ ns_of_timespec (msleep_timespec ms) = ms * 1000000.
Proof.
  intros Hms. destruct (msleep_request ms Hms) as [Hv Hns].
  split; [|split; assumption].
  unfold msleep_timespec.
  rewrite Z.quot_div_nonneg, Z.rem_mod_nonneg by lia. reflexivity.
Qed.

(** X2: on the [nanosleep] strategy, whatever the build and whatever is
    done to the time of day meanwhile, a Sleep of [ms >= 0] that returns
    has let at least [ms] milliseconds go by on the monotonic clock. *)
Theorem nni_msleep_nanosleep_real_time
        (b : build) (ms : nni_duration) (w : sys) (s : list env_step)
        (w' : sys) (s' : list env_step) :
  b <> Gettimeofday ->
  0 <= ms ->
  nni_msleep strerror b ms w s = Returned tt w' s' ->
  mono_ns w + ms * 1000000 <= mono_ns w'.
Proof.
  intros Hb Hms Hrun. rewrite nni_msleep_is_loop in Hrun by exact Hb.
  destruct (msleep_timespec_nonneg ms Hms) as (_ & Hv & Hns).
  destruct (nanosleep_loop_sleeps_enough _ _ _ _ _ _ Hv Hrun) as [Hm _].
  lia.
Qed.

(** X3: for a duration [0 < ms] of type [int], the first thing Sleep does
    is to call [nanosleep] with [ms / 1000] seconds and
    [(ms mod 1000) * 1000000] nanoseconds: a request that [nanosleep]
    accepts, worth exactly [ms] milliseconds, and whose nanoseconds were
    computed without overflow of [int]. *)
Theorem nni_msleep_first_request
        (b : build) (ms : nni_duration) (w : sys) (e : env_step)
        (rest : list env_step) :
  b <> Gettimeofday ->
  0 < ms < 2 ^ 31 ->
  let rqtp := mk_timespec (ms / 1000) (ms mod 1000 * 1000000) in
  (exists calls,
      trace (sys_of (nni_msleep strerror b ms w (e :: rest)))
      = trace w ++ SysNanosleep rqtp :: calls)
  /\ valid_request rqtp = true
  /\ ns_of_timespec rqtp = ms * 1000000
  /\ to_int (ms mod 1000 * 1000000) = ms mod 1000 * 1000000.
Proof.
  intros Hb Hms rqtp.
  destruct (msleep_timespec_nonneg ms ltac:(lia)) as (Hts & Hv & Hns).
  fold rqtp in Hts. rewrite Hts in Hv, Hns.
  pose proof (Z.mod_pos_bound ms 1000 ltac:(lia)) as Hmb.
  split; [|split; [exact Hv|split; [exact Hns|]]].
  - rewrite nni_msleep_is_loop, Hts by exact Hb.
    change (List.length (e :: rest)) with (S (List.length rest)).
    rewrite nanosleep_loop_run.
    assert (Hnz : negb (tv_sec rqtp =? 0) || negb (tv_nsec rqtp =? 0) = true).
    { destruct (Z.eqb_spec (tv_sec rqtp) 0) as [Hs|]; [|reflexivity].
      destruct (Z.eqb_spec (tv_nsec rqtp) 0) as [Hn|]; [|reflexivity].
      unfold ns_of_timespec in Hns. rewrite Hs, Hn in Hns. lia. }
    rewrite Hnz.
    pose proof (sys_nanosleep_trace rqtp w e) as Htr.
    destruct (sys_nanosleep rqtp w e) as [[rv out] w1]. simpl in Htr.
    destruct (rv =? 0).
    + exists []. exact Htr.
    + destruct (nanosleep_loop_trace (List.length rest) (stored rqtp out)
                                     w1 rest) as [calls Hc].
      exists calls. rewrite Hc, Htr, <- app_assoc. reflexivity.
  - unfold to_int. rewrite Z.mod_small by lia. lia.
Qed.

Lemma sys_nanosleep_remainder (ts : timespec) (w : sys) (e : env_step) :
  valid_request ts = true ->
  valid_request (stored ts (snd (fst (sys_nanosleep ts w e)))) = true
  /\ ns_of_timespec (stored ts (snd (fst (sys_nanosleep ts w e))))
     <= ns_of_timespec ts.
Proof.
  intros Hv. unfold sys_nanosleep. rewrite Hv. cbn [negb].
  destruct e as [lapse|elapsed|err|delta]; cbn [fst snd stored];
    try (split; [exact Hv | lia]).
  destruct (Z.ltb_spec (Z.of_N elapsed) (ns_of_timespec ts)) as [Hlt|Hge];
    cbn [fst snd stored]; [|split; [exact Hv | lia]].
  destruct (timespec_of_ns_valid (ns_of_timespec ts - Z.of_N elapsed))
    as [Hv' Hns]; [lia|].
  rewrite Hns. split; [exact Hv' | lia].
Qed.

Lemma nanosleep_loop_requests (limit : Z) (fuel : nat) :
  forall ts w s,
    valid_request ts = true ->
    ns_of_timespec ts <= limit ->
    exists calls,
      trace (sys_of (nanosleep_loop fuel ts w s)) = trace w ++ calls
      /\ forallb (nanosleep_within limit) calls = true
      /\ (List.length calls <= List.length s)%nat.
Proof.
  induction fuel as [|fuel IH]; intros ts w s Hv Hlim.
  - exists []. rewrite app_nil_r. simpl.
    destruct (negb (tv_sec ts =? 0) || negb (tv_nsec ts =? 0));
      repeat split; lia.
  - destruct s as [|e rest].
    + exists []. rewrite app_nil_r. simpl.
      destruct (negb (tv_sec ts =? 0) || negb (tv_nsec ts =? 0));
        repeat split; lia.
    + rewrite nanosleep_loop_run.
      destruct (negb (tv_sec ts =? 0) || negb (tv_nsec ts =? 0)).
      * pose proof (sys_nanosleep_trace ts w e) as Htr.
        destruct (sys_nanosleep_remainder ts w e Hv) as [Hv1 Hle].
        destruct (sys_nanosleep ts w e) as [[rv out] w1].
        cbn [fst snd] in Htr, Hv1, Hle.
        assert (Hthis : nanosleep_within limit (SysNanosleep ts) = true).
        { cbn [nanosleep_within]. rewrite Hv. cbn [andb].
          apply Z.leb_le. exact Hlim. }
        destruct (rv =? 0).
        -- exists [SysNanosleep ts]. cbn [sys_of forallb List.length].
           rewrite Hthis. repeat split; [exact Htr | lia].
        -- destruct (IH (stored ts out) w1 rest Hv1 ltac:(lia))
             as (calls & Hc & Hall & Hlen).
           exists (SysNanosleep ts :: calls).
           cbn [forallb List.length]. rewrite Hthis, Hall, Hc, Htr.
           rewrite <- app_assoc. repeat split. lia.
      * exists []. rewrite app_nil_r. cbn [sys_of forallb List.length].
        repeat split. lia.
Qed.

(** X4: Sleep on the [nanosleep] strategy makes no other system call than
    [nanosleep] (it never asks for the time), at most one per step of the
    environment, and for [ms >= 0] every request it passes is well formed
    and asks for no more than the [ms] milliseconds of the caller. *)
Theorem nni_msleep_only_nanosleep
        (b : build) (ms : nni_duration) (w : sys) (s : list env_step) :
  b <> Gettimeofday ->
  0 <= ms ->
  exists calls,
    trace (sys_of (nni_msleep strerror b ms w s)) = trace w ++ calls
    /\ forallb (nanosleep_within (ms * 1000000)) calls = true
    /\ (List.length calls <= List.length s)%nat.
Proof.
  intros Hb Hms. rewrite nni_msleep_is_loop by exact Hb.
  destruct (msleep_timespec_nonneg ms Hms) as (_ & Hv & Hns).
  apply nanosleep_loop_requests; [exact Hv | lia].
Qed.

Lemma total_elapsed_nonneg (els : list N) : 0 <= total_elapsed els.
Proof. induction els as [|el els IH]; cbn [total_elapsed fold_right]; [lia|].
       fold (total_elapsed els). lia. Qed.

Lemma nonzero_of_ns (ts : timespec) :
  0 < ns_of_timespec ts ->
  negb (tv_sec ts =? 0) || negb (tv_nsec ts =? 0) = true.
Proof.
  intros Hpos.
  destruct (Z.eqb_spec (tv_sec ts) 0) as [Hs|]; [|reflexivity].
  destruct (Z.eqb_spec (tv_nsec ts) 0) as [Hn|]; [|reflexivity].
  unfold ns_of_timespec in Hpos. rewrite Hs, Hn in Hpos. lia.
Qed.

Lemma nanosleep_loop_interrupted (lapse : N) (rest : list env_step) :
  forall els ts w,
    valid_request ts = true ->
    0 < ns_of_timespec ts ->
    total_elapsed els < ns_of_timespec ts ->
    let s := map Interrupt els ++ Proceed lapse :: rest in
    exists w',
      nanosleep_loop (List.length s) ts w s = Returned tt w' rest
      /\ mono_ns w' = mono_ns w + ns_of_timespec ts + Z.of_N lapse
      /\ List.length (trace w')
         = (List.length (trace w) + List.length els + 1)%nat.
Proof.
  induction els as [|el els IH]; intros ts w Hv Hpos Hsum s; subst s.
  - cbn [map app List.length]. rewrite nanosleep_loop_run.
    rewrite (nonzero_of_ns ts Hpos).
    unfold sys_nanosleep. rewrite Hv. cbn [negb].
    change (0 =? 0) with true. cbv iota.
    eexists. split; [reflexivity|].
    cbn [log advance mono_ns trace]. rewrite length_app.
    cbn [List.length]. split; lia.
  - cbn [map app List.length]. rewrite nanosleep_loop_run.
    rewrite (nonzero_of_ns ts Hpos).
    cbn [total_elapsed fold_right] in Hsum. fold (total_elapsed els) in Hsum.
    pose proof (total_elapsed_nonneg els) as Hels.
    unfold sys_nanosleep. rewrite Hv. cbn [negb].
    destruct (Z.ltb_spec (Z.of_N el) (ns_of_timespec ts)) as [Hlt|Hge];
      [|lia].
    change (-1 =? 0) with false. cbv iota. cbn [stored].
    destruct (timespec_of_ns_valid (ns_of_timespec ts - Z.of_N el))
      as [Hv1 Hns1]; [lia|].
    destruct (IH (timespec_of_ns (ns_of_timespec ts - Z.of_N el))
                 (log (SysNanosleep ts)
                      (set_errno EINTR (advance (Z.of_N el) w)))
                 Hv1 ltac:(lia) ltac:(lia))
      as (w' & Hrun & Hmono & Hlen).
    exists w'. split; [exact Hrun|].
    rewrite Hmono, Hlen, Hns1.
    cbn [log set_errno advance mono_ns trace]. rewrite length_app.
    cbn [List.length]. split; lia.
Qed.

(** X5: interruptions cost no time of their own.  When a Sleep of [ms > 0]
    on the [nanosleep] strategy is interrupted any number of times, each
    time before the time still owed has gone by, and the next call then
    runs to its end, Sleep returns there: it has made one call more than
    there were interruptions, and the time gone by is the [ms]
    milliseconds plus the overrun of the last call only. *)
Theorem nni_msleep_interrupted_total
        (b : build) (ms : nni_duration) (w : sys) (els : list N)
        (lapse : N) (rest : list env_step) :
  b <> Gettimeofday ->
  0 < ms ->
  total_elapsed els < ms * 1000000 ->
  exists w',
    nni_msleep strerror b ms w (map Interrupt els ++ Proceed lapse :: rest)
    = Returned tt w' rest
    /\ mono_ns w' = mono_ns w + ms * 1000000 + Z.of_N lapse
    /\ List.length (trace w')
       = (List.length (trace w) + List.length els + 1)%nat.
Proof.
  intros Hb Hms Hsum. rewrite nni_msleep_is_loop by exact Hb.
  destruct (msleep_timespec_nonneg ms ltac:(lia)) as (_ & Hv & Hns).
  destruct (nanosleep_loop_interrupted lapse rest els (msleep_timespec ms) w
              Hv ltac:(lia) ltac:(lia)) as (w' & Hrun & Hmono & Hlen).
  exists w'. rewrite <- Hns. auto.
Qed.

Lemma msleep_timespec_negative (ms : nni_duration) :
  ms < 0 ->
  valid_request (msleep_timespec ms) = false
  /\ negb (tv_sec (msleep_timespec ms) =? 0)
     || negb (tv_nsec (msleep_timespec ms) =? 0) = true.
Proof.
  intros Hms. unfold msleep_timespec, valid_request. cbn [tv_sec tv_nsec].
  pose proof (Z.quot_rem' ms 1000) as Hqr.
  pose proof (Z.rem_bound_pos_neg ms 1000 ltac:(lia) ltac:(lia)) as Hrb.
  assert (Hq : Z.quot ms 1000 <= 0) by lia.
  split.
  - destruct (Z.leb_spec 0 (Z.quot ms 1000)) as [Hq0|]; [|reflexivity].
    destruct (Z.leb_spec 0 (Z.rem ms 1000 * 1000000)); [lia|reflexivity].
  - destruct (Z.eqb_spec (Z.quot ms 1000) 0) as [Hq0|]; [|reflexivity].
    destruct (Z.eqb_spec (Z.rem ms 1000 * 1000000) 0); [lia|reflexivity].
Qed.

Lemma nanosleep_loop_rejected (ts : timespec) :
  valid_request ts = false ->
  negb (tv_sec ts =? 0) || negb (tv_nsec ts =? 0) = true ->
  forall s w,
    exists w',
      nanosleep_loop (List.length s) ts w s = Running w'
      /\ trace w' = trace w ++ repeat (SysNanosleep ts) (List.length s)
      /\ (s <> [] -> errno w' = EINVAL).
Proof.
  intros Hv Hnz. induction s as [|e rest IH]; intros w.
  - exists w. cbn [List.length nanosleep_loop repeat]. rewrite Hnz, app_nil_r.
    repeat split. intros H. contradiction.
  - cbn [List.length]. rewrite nanosleep_loop_run, Hnz.
    unfold sys_nanosleep. rewrite Hv. cbn [negb].
    change (-1 =? 0) with false. cbv iota. cbn [stored].
    destruct (IH (log (SysNanosleep ts) (set_errno EINVAL (pass e w))))
      as (w' & Hrun & Htr & Herr).
    exists w'. split; [exact Hrun|]. split.
    + rewrite Htr. cbn [log trace set_errno repeat].
      destruct (pass_frame e w) as (_ & _ & ->).
      rewrite <- app_assoc. reflexivity.
    + intros _. destruct rest as [|e2 rest2].
      * cbn [List.length nanosleep_loop] in Hrun. rewrite Hnz in Hrun.
        injection Hrun as <-. reflexivity.
      * apply Herr. discriminate.
Qed.

(** X6: a negative duration makes the [nanosleep] version of Sleep spin.
    The request it builds has a negative field, [nanosleep] rejects it
    with [EINVAL] and stores no remainder, and the loop tries the same
    request again: however long the environment is observed Sleep has not
    returned, and it has made one rejected call per step. *)
Theorem nni_msleep_negative_spins
        (b : build) (ms : nni_duration) (w : sys) (s : list env_step) :
  b <> Gettimeofday ->
  ms < 0 ->
  exists w',
    nni_msleep strerror b ms w s = Running w'
    /\ trace w'
       = trace w ++ repeat (SysNanosleep (msleep_timespec ms)) (List.length s)
    /\ valid_request (msleep_timespec ms) = false
    /\ (s <> [] -> errno w' = EINVAL).
Proof.
  intros Hb Hms. rewrite nni_msleep_is_loop by exact Hb.
  destruct (msleep_timespec_negative ms Hms) as [Hv Hnz].
  destruct (nanosleep_loop_rejected _ Hv Hnz s w) as (w' & Hrun & Htr & He).
  exists w'. auto.
Qed.

(** ** The [poll] version of Sleep *)

(** The legacy Clock over one step of the environment. *)
Lemma clock_legacy_ok (w : sys) (e : env_step) (rest : list env_step) :
  fails e = false ->
  nni_clock strerror Gettimeofday w (e :: rest)
  = Returned (wrap64 (tod_ns (pass e w) / 1000000))
             (log SysGettimeofday (pass e w)) rest.
Proof.
  intros He. cbn [nni_clock]. rewrite nni_clock_gettimeofday_run.
  assert (Hsys : sys_gettimeofday w e
                 = (0, Some (timeval_of_ns (tod_ns (pass e w))),
                    log SysGettimeofday (pass e w)))
    by (destruct e; [reflexivity | reflexivity | discriminate He
                    | reflexivity]).
  rewrite Hsys. change (0 =? 0) with true. cbv iota. unfold stored.
  rewrite wrap64_msec. unfold timeval_of_ns, TV.tv_sec, TV.tv_usec.
  pose proof (Z.mod_pos_bound (tod_ns (pass e w)) 1000000000 ltac:(lia))
    as Hmb.
  rewrite Z.quot_div_nonneg by (try apply Z.div_pos; lia).
  rewrite Z.div_div by lia. change (1000 * 1000) with 1000000.
  rewrite msec_of_ns. reflexivity.
Qed.

Lemma clock_legacy_failed (w : sys) (err : Z) (rest : list env_step) :
  nni_clock strerror Gettimeofday w (Fail err :: rest)
  = Panicked ("gettimeofday failed: " ++ strerror err)
             (log SysGettimeofday (set_errno err w)).
Proof. cbn [nni_clock]. rewrite nni_clock_gettimeofday_run. reflexivity. Qed.

Lemma to_int_small (z : Z) : 0 <= z < 2 ^ 31 -> to_int z = z.
Proof. intros H. unfold to_int. rewrite Z.mod_small by lia. lia. Qed.

(** The time of day does not go back over the loop, however it ends. *)
Lemma poll_loop_tod_mono (fuel : nat) :
  forall now expire w s,
    steady s = true ->
    tod_ns w <= tod_ns (sys_of (poll_loop strerror fuel now expire w s)).
Proof.
  induction fuel as [|fuel IH]; intros now expire w s Hst.
  - cbn [poll_loop]. destruct (now <? expire); cbn [sys_of ret]; lia.
  - destruct s as [|e rest].
    + cbn [poll_loop]. unfold bind, poll, ret.
      destruct (now <? expire); cbn [sys_of]; lia.
    + rewrite poll_loop_run. destruct (now <? expire); [|cbn [sys_of]; lia].
      destruct (steady_tail _ _ Hst) as [He Hrest].
      destruct (sys_poll 0 _ w e) as [[rv w1]|] eqn:Hpoll;
        [|cbn [sys_of log tod_ns]; lia].
      destruct (sys_poll_clocks _ _ _ _ _ _ Hpoll) as (_ & Ht1 & _).
      specialize (Ht1 He).
      destruct rest as [|e2 rest2].
      * cbn [nni_clock]. unfold nni_clock_gettimeofday, bind, gettimeofday,
          call. cbn [sys_of]. lia.
      * destruct (steady_tail _ _ Hrest) as [He2 Hrest2].
        destruct (pass_clocks e2 w1) as [_ Ht2]. specialize (Ht2 He2).
        destruct (fails e2) eqn:Hf.
        -- destruct e2; try discriminate Hf.
           rewrite clock_legacy_failed. cbn [sys_of log set_errno tod_ns].
           lia.
        -- rewrite (clock_legacy_ok w1 e2 rest2 Hf).
           specialize (IH (wrap64 (tod_ns (pass e2 w1) / 1000000)) expire
                          (log SysGettimeofday (pass e2 w1)) rest2 Hrest2).
           assert (Htod2 : tod_ns (log SysGettimeofday (pass e2 w1))
                           = tod_ns (pass e2 w1)) by reflexivity.
           lia.
Qed.

Lemma poll_loop_calls (d : Z) (fuel : nat) :
  0 <= d < 2 ^ 31 ->
  forall now expire w s,
    steady s = true ->
    0 <= tod_ns w ->
    0 <= now <= tod_ns w / 1000000 ->
    expire <= now + d ->
    tod_ns (sys_of (poll_loop strerror fuel now expire w s)) < 2 ^ 63 ->
    exists calls,
      trace (sys_of (poll_loop strerror fuel now expire w s))
      = trace w ++ calls
      /\ forallb (poll_sleep_call d) calls = true.
Proof.
  intros Hd. induction fuel as [|fuel IH];
    intros now expire w s Hst H0 Hnow Hexp Hmax.
  - exists []. rewrite app_nil_r. cbn [poll_loop].
    destruct (now <? expire); split; reflexivity.
  - destruct s as [|e rest].
    + exists []. rewrite app_nil_r. cbn [poll_loop]. unfold bind, poll, ret.
      destruct (now <? expire); split; reflexivity.
    + rewrite poll_loop_run in Hmax |- *.
      destruct (Z.ltb_spec now expire) as [Hlt|Hge];
        [|exists []; rewrite app_nil_r; split; reflexivity].
      assert (Hto : to_int (wrap64 (expire - now)) = expire - now).
      { rewrite wrap64_small by lia. apply to_int_small. lia. }
      rewrite Hto in Hmax |- *.
      assert (Hcall : poll_sleep_call d (SysPoll 0 (expire - now)) = true).
      { cbn [poll_sleep_call]. change (0 =? 0) with true. cbn [andb].
        apply andb_true_intro. split; [apply Z.ltb_lt | apply Z.leb_le]; lia. }
      destruct (steady_tail _ _ Hst) as [He Hrest].
      destruct (sys_poll 0 (expire - now) w e) as [[rv w1]|] eqn:Hpoll.
      * destruct (sys_poll_clocks _ _ _ _ _ _ Hpoll) as (_ & Ht1 & Htr1).
        specialize (Ht1 He).
        destruct rest as [|e2 rest2].
        -- exists [SysPoll 0 (expire - now)].
           cbn [nni_clock]. unfold nni_clock_gettimeofday, bind,
             gettimeofday, call. cbn [sys_of forallb].
           rewrite Hcall. split; [exact Htr1 | reflexivity].
        -- destruct (steady_tail _ _ Hrest) as [He2 Hrest2].
           destruct (pass_clocks e2 w1) as [_ Ht2]. specialize (Ht2 He2).
           destruct (pass_frame e2 w1) as (_ & _ & Htr2).
           destruct (fails e2) eqn:Hf.
           ++ destruct e2; try discriminate Hf.
              rewrite clock_legacy_failed.
              exists [SysPoll 0 (expire - now); SysGettimeofday].
              cbn [sys_of log set_errno trace forallb].
              rewrite Hcall, Htr1, <- app_assoc. split; reflexivity.
           ++ rewrite (clock_legacy_ok w1 e2 rest2 Hf) in Hmax |- *.
              set (w2 := log SysGettimeofday (pass e2 w1)) in *.
              assert (Htod2 : tod_ns w2 = tod_ns (pass e2 w1))
                by reflexivity.
              assert (Htr3 : trace w2
                             = trace w ++ [SysPoll 0 (expire - now);
                                           SysGettimeofday]).
              { unfold w2. cbn [log trace]. rewrite Htr2, Htr1,
                  <- app_assoc. reflexivity. }
              rewrite <- Htod2 in Hmax |- *.
              pose proof (poll_loop_tod_mono fuel
                            (wrap64 (tod_ns w2 / 1000000)) expire w2 rest2
                            Hrest2) as Hmono.
              assert (Hrange : 0 <= tod_ns w2 < 2 ^ 63) by lia.
              rewrite (wrap64_msec_small _ Hrange) in Hmax |- *.
              assert (Hq : tod_ns w / 1000000 <= tod_ns w2 / 1000000)
                by (apply Z.div_le_mono; lia).
              destruct (IH (tod_ns w2 / 1000000) expire w2 rest2 Hrest2
                           ltac:(lia) ltac:(lia) ltac:(lia) Hmax)
                as (calls & Hc & Hall).
              exists (SysPoll 0 (expire - now) :: SysGettimeofday :: calls).
              rewrite Hc, Htr3, <- app_assoc. cbn [app forallb].
              rewrite Hcall, Hall. split; reflexivity.
      * exists [SysPoll 0 (expire - now)].
        cbn [sys_of log trace forallb]. rewrite Hcall.
        split; reflexivity.
Qed.

Lemma nni_msleep_poll_start (d : nni_duration) (w : sys) (e : env_step)
      (rest : list env_step) :
  fails e = false ->
  nni_msleep strerror Gettimeofday d w (e :: rest)
  = poll_loop strerror (List.length rest)
      (wrap64 (tod_ns (pass e w) / 1000000))
      (wrap64 (wrap64 (tod_ns (pass e w) / 1000000) + wrap64 d))
      (log SysGettimeofday (pass e w)) rest.
Proof.
  intros He. cbn [nni_msleep]. unfold nni_msleep_poll, bind.
  rewrite (clock_legacy_ok w e rest He). reflexivity.
Qed.

Lemma expire_no_wrap (now d : Z) :
  0 <= now < 2 ^ 63 -> 0 <= d < 2 ^ 31 ->
  wrap64 (now + wrap64 d) = now + d.
Proof.
  intros Hn Hd. rewrite (wrap64_small d) by lia. apply wrap64_small. lia.
Qed.

(** X7: while the time of day is not set back and stays in range, the
    [poll] version of a sleep of [d] ms calls nothing but [gettimeofday]
    and [poll], always on no descriptor and always with a timeout of at
    least 1 and at most [d]: the time still to wait is never computed as
    zero, as negative (which would wait without limit) or as more than
    was asked for. *)
Theorem nni_msleep_poll_timeouts
        (d : nni_duration) (w : sys) (s : list env_step) :
  0 <= d < 2 ^ 31 ->
  steady s = true ->
  0 <= tod_ns w ->
  tod_ns (sys_of (nni_msleep strerror Gettimeofday d w s)) < 2 ^ 63 ->
  exists calls,
    trace (sys_of (nni_msleep strerror Gettimeofday d w s))
    = trace w ++ calls
    /\ forallb (poll_sleep_call d) calls = true.
Proof.
  intros Hd Hst H0.
  destruct s as [|e rest].
  { intros _. exists []. rewrite app_nil_r. split; reflexivity. }
  destruct (steady_tail _ _ Hst) as [He Hrest].
  destruct (pass_clocks e w) as [_ Ht]. specialize (Ht He).
  destruct (pass_frame e w) as (_ & _ & Htr).
  destruct (fails e) eqn:Hf.
  { destruct e; try discriminate Hf. intros _.
    exists [SysGettimeofday]. cbn [nni_msleep].
    unfold nni_msleep_poll, bind. rewrite clock_legacy_failed.
    split; reflexivity. }
  rewrite (nni_msleep_poll_start d w e rest Hf).
  set (wa := log SysGettimeofday (pass e w)).
  assert (Htoda : tod_ns wa = tod_ns (pass e w)) by reflexivity.
  assert (Htra : trace wa = trace w ++ [SysGettimeofday])
    by (unfold wa; cbn [log trace]; rewrite Htr; reflexivity).
  rewrite <- Htoda. intros Hmax.
  pose proof (poll_loop_tod_mono (List.length rest)
                (wrap64 (tod_ns wa / 1000000))
                (wrap64 (wrap64 (tod_ns wa / 1000000) + wrap64 d))
                wa rest Hrest) as Hmono.
  assert (Hrange : 0 <= tod_ns wa < 2 ^ 63) by lia.
  rewrite (wrap64_msec_small _ Hrange) in Hmax |- *.
  assert (Hq0 : 0 <= tod_ns wa / 1000000) by (apply Z.div_pos; lia).
  assert (Hq1 : tod_ns wa / 1000000 < 2 ^ 63)
    by (apply Z.div_lt_upper_bound; lia).
  rewrite expire_no_wrap in Hmax |- * by lia.
  destruct (poll_loop_calls d (List.length rest) Hd
              (tod_ns wa / 1000000) (tod_ns wa / 1000000 + d) wa rest
              Hrest ltac:(lia) ltac:(lia) ltac:(lia) Hmax)
    as (calls & Hc & Hall).
  exists (SysGettimeofday :: calls).
  rewrite Hc, Htra, <- app_assoc. cbn [app forallb poll_sleep_call].
  rewrite Hall. split; reflexivity.
Qed.

(** X8: an undisturbed sleep on the [poll] strategy.  When nothing
    happens but time passing, a sleep of [d > 0] ms asks for the time,
    polls once for the whole [d] ms, asks for the time again, finds the
    expiry reached and returns: three calls, and the time gone by is [d]
    ms plus what the three calls took. *)
Theorem nni_msleep_poll_undisturbed
        (d : nni_duration) (w : sys) (l1 l2 l3 : N)
        (rest : list env_step) :
  0 < d < 2 ^ 31 ->
  0 <= tod_ns w ->
  tod_ns w + Z.of_N l1 + d * 1000000 + Z.of_N l2 + Z.of_N l3 < 2 ^ 63 ->
  exists w',
    nni_msleep strerror Gettimeofday d w
               (Proceed l1 :: Proceed l2 :: Proceed l3 :: rest)
    = Returned tt w' rest
    /\ trace w' = trace w ++ [SysGettimeofday; SysPoll 0 d; SysGettimeofday]
    /\ mono_ns w'
       = mono_ns w + Z.of_N l1 + d * 1000000 + Z.of_N l2 + Z.of_N l3.
Proof.
  intros Hd H0 Hmax.
  rewrite nni_msleep_poll_start by reflexivity.
  cbn [pass advance tod_ns].
  set (t1 := tod_ns w + Z.of_N l1).
  assert (Ht1 : 0 <= t1 < 2 ^ 63) by (unfold t1; lia).
  rewrite (wrap64_msec_small t1 Ht1).
  assert (Hq0 : 0 <= t1 / 1000000) by (apply Z.div_pos; lia).
  assert (Hq1 : t1 / 1000000 < 2 ^ 63) by (apply Z.div_lt_upper_bound; lia).
  rewrite expire_no_wrap by lia.
  cbn [List.length]. rewrite poll_loop_run.
  destruct (Z.ltb_spec (t1 / 1000000) (t1 / 1000000 + d)) as [_|]; [|lia].
  replace (t1 / 1000000 + d - t1 / 1000000) with d by lia.
  rewrite wrap64_small, to_int_small by lia.
  unfold sys_poll. destruct (Z.ltb_spec d 0) as [|_]; [lia|].
  rewrite clock_legacy_ok by reflexivity.
  cbn [pass advance log tod_ns mono_ns timebase os_10_12 errno trace].
  fold t1.
  set (t3 := t1 + (d * 1000000 + Z.of_N l2) + Z.of_N l3).
  assert (Ht3 : 0 <= t3 < 2 ^ 63) by (unfold t3, t1; lia).
  rewrite (wrap64_msec_small t3 Ht3).
  assert (Hreach : t1 / 1000000 + d <= t3 / 1000000).
  { replace (t1 / 1000000 + d) with ((t1 + d * 1000000) / 1000000)
      by (rewrite Z.div_add by lia; reflexivity).
    apply Z.div_le_mono; unfold t3; lia. }
  eexists. split.
  - destruct (List.length rest); cbn [poll_loop];
      destruct (Z.ltb_spec (t3 / 1000000) (t1 / 1000000 + d));
      try lia; reflexivity.
  - unfold log, advance.
    cbn [trace mono_ns tod_ns timebase os_10_12 errno].
    rewrite <- !app_assoc. split; [reflexivity | lia].
Qed.

Lemma unadjusted_tail (e : env_step) (s : list env_step) :
  unadjusted (e :: s) = true -> adjusts e = false /\ unadjusted s = true.
Proof.
  cbn [unadjusted forallb]. intros H. apply andb_prop in H as [He Hs].
  apply negb_true_iff in He. auto.
Qed.

Lemma unadjusted_steady (s : list env_step) :
  unadjusted s = true -> steady s = true.
Proof.
  induction s as [|e s IH]; [reflexivity|].
  intros H. destruct (unadjusted_tail _ _ H) as [He Hs].
  cbn [steady forallb]. fold (steady s). rewrite (IH Hs).
  destruct e; try reflexivity. discriminate He.
Qed.

(** With no setting of the time of day the two clocks run in step. *)
Lemma pass_offset (e : env_step) (w : sys) :
  adjusts e = false ->
  tod_ns (pass e w) - mono_ns (pass e w) = tod_ns w - mono_ns w.
Proof.
  destruct e; intros He; try discriminate He;
    cbn [pass advance tod_ns mono_ns]; lia.
Qed.

Lemma sys_poll_offset (nfds timeout : Z) (w : sys) (e : env_step)
      (rv : Z) (w1 : sys) :
  adjusts e = false ->
  sys_poll nfds timeout w e = Some (rv, w1) ->
  tod_ns w1 - mono_ns w1 = tod_ns w - mono_ns w.
Proof.
  unfold sys_poll.
  destruct e as [lapse|elapsed|err|delta]; intros He; try discriminate He.
  - destruct (timeout <? 0); [discriminate|].
    intros H. injection H as _ <-. cbn [log advance tod_ns mono_ns]. lia.
  - destruct ((timeout <? 0) || (Z.of_N elapsed <? timeout * 1000000));
      intros H; injection H as _ <-;
      cbn [log set_errno advance tod_ns mono_ns]; lia.
  - intros H. injection H as _ <-.
    cbn [log set_errno tod_ns mono_ns]. lia.
Qed.

Lemma poll_loop_offset (fuel : nat) :
  forall now expire w s w' s',
    poll_loop strerror fuel now expire w s = Returned tt w' s' ->
    unadjusted s = true ->
    tod_ns w' - mono_ns w' = tod_ns w - mono_ns w.
Proof.
  induction fuel as [|fuel IH]; intros now expire w s w' s' Hrun Hun.
  - cbn [poll_loop] in Hrun. destruct (now <? expire); [discriminate|].
    injection Hrun as <- _. reflexivity.
  - destruct s as [|e rest].
    + cbn [poll_loop] in Hrun. unfold bind, poll, ret in Hrun.
      destruct (now <? expire); [discriminate|].
      injection Hrun as <- _. reflexivity.
    + rewrite poll_loop_run in Hrun.
      destruct (now <? expire); [|injection Hrun as <- _; reflexivity].
      destruct (unadjusted_tail _ _ Hun) as [He Hrest].
      destruct (sys_poll 0 _ w e) as [[rv w1]|] eqn:Hpoll; [|discriminate].
      pose proof (sys_poll_offset _ _ _ _ _ _ He Hpoll) as Hoff1.
      destruct rest as [|e2 rest2]; [discriminate Hrun|].
      destruct (unadjusted_tail _ _ Hrest) as [He2 Hrest2].
      destruct (fails e2) eqn:Hf.
      * destruct e2; try discriminate Hf.
        rewrite clock_legacy_failed in Hrun. discriminate.
      * rewrite (clock_legacy_ok w1 e2 rest2 Hf) in Hrun.
        pose proof (IH _ _ _ _ _ _ Hrun Hrest2) as Hoff2.
        pose proof (pass_offset e2 w1 He2) as Hoff3.
        assert (Hlog : tod_ns (log SysGettimeofday (pass e2 w1))
                       - mono_ns (log SysGettimeofday (pass e2 w1))
                       = tod_ns (pass e2 w1) - mono_ns (pass e2 w1))
          by reflexivity.
        lia.
Qed.

(** X9: in real time the [poll] version can fall short of the duration,
    but by less than a millisecond.  When nobody sets the time of day, a
    sleep of [d] ms that returns has let more than [d - 1] ms go by on the
    monotonic clock (at least [d] ms less 999999 ns): the shortfall is the
    part of a millisecond that Clock cut off when the sleep began. *)
Theorem nni_msleep_poll_real_time
        (d : nni_duration) (w : sys) (s : list env_step)
        (w' : sys) (s' : list env_step) :
  nni_msleep strerror Gettimeofday d w s = Returned tt w' s' ->
  0 <= d < 2 ^ 31 ->
  unadjusted s = true ->
  0 <= tod_ns w ->
  tod_ns w' < 2 ^ 63 ->
  mono_ns w + d * 1000000 - 999999 <= mono_ns w'.
Proof.
  intros Hrun Hd Hun H0 Hmax.
  destruct s as [|e rest]; [discriminate Hrun|].
  destruct (unadjusted_tail _ _ Hun) as [He Hrest].
  destruct (fails e) eqn:Hf.
  { destruct e; try discriminate Hf. cbn [nni_msleep] in Hrun.
    unfold nni_msleep_poll, bind in Hrun.
    rewrite clock_legacy_failed in Hrun. discriminate. }
  rewrite (nni_msleep_poll_start d w e rest Hf) in Hrun.
  set (wa := log SysGettimeofday (pass e w)) in *.
  assert (Htoda : tod_ns wa = tod_ns (pass e w)) by reflexivity.
  assert (Hmonoa : mono_ns wa = mono_ns (pass e w)) by reflexivity.
  rewrite <- Htoda in Hrun.
  pose proof (pass_offset e w He) as Hoff0.
  destruct (pass_clocks e w) as [Hm0 Ht0].
  assert (Hsb : steps_back e = false) by (destruct e; try reflexivity;
                                          discriminate He).
  specialize (Ht0 Hsb).
  pose proof (unadjusted_steady rest Hrest) as Hst.
  pose proof (poll_loop_offset _ _ _ _ _ _ _ Hrun Hrest) as Hoff.
  assert (Hn0 : wrap64 (tod_ns wa / 1000000) <= tod_ns wa / 1000000)
    by (apply wrap64_le; apply Z.div_pos; lia).
  destruct (poll_loop_reaches_expiry _ _ _ _ _ _ _ _ Hrun Hst
              ltac:(lia) Hn0) as (Hexp & Hta & _).
  assert (Hrange : 0 <= tod_ns wa < 2 ^ 63) by lia.
  rewrite (wrap64_msec_small _ Hrange) in Hexp.
  assert (Hq0 : 0 <= tod_ns wa / 1000000) by (apply Z.div_pos; lia).
  assert (Hq1 : tod_ns wa / 1000000 < 2 ^ 63)
    by (apply Z.div_lt_upper_bound; lia).
  rewrite expire_no_wrap in Hexp by lia.
  pose proof (Z.div_mod (tod_ns wa) 1000000 ltac:(lia)) as Hdm.
  pose proof (Z.mod_pos_bound (tod_ns wa) 1000000 ltac:(lia)) as Hmb.
  pose proof (Z.mul_div_le (tod_ns w') 1000000 ltac:(lia)) as Hfl.
  lia.
Qed.

(** ** Settings of the time of day during a legacy sleep *)

Lemma to_int_high (z : Z) : 2 ^ 31 <= z < 2 ^ 32 -> to_int z = z - 2 ^ 32.
Proof.
  intros H. unfold to_int.
  replace (z + 2 ^ 31) with (z - 2 ^ 31 + 1 * 2 ^ 32) by lia.
  rewrite Z.mod_add, Z.mod_small by lia. lia.
Qed.

(** X10: the cast of line 167 can turn a long wait into an endless one.
    If the time of day is set back while [poll] waits, so far that at the
    next reading between [2^31] and [2^32] ms remain until the expiry, the
    remaining time no longer fits [int]: [poll] is called with the
    negative timeout [remaining - 2^32] and, left alone, never returns. *)
Theorem nni_msleep_poll_set_back_blocks
        (d : nni_duration) (w : sys) (l1 l3 l4 : N) (delta : Z)
        (rest : list env_step) :
  let t1 := tod_ns w + Z.of_N l1 in
  let t3 := t1 + delta + d * 1000000 + Z.of_N l3 in
  let remaining := t1 / 1000000 + d - t3 / 1000000 in
  0 < d < 2 ^ 31 ->
  0 <= tod_ns w -> t1 < 2 ^ 63 -> 0 <= t3 ->
  2 ^ 31 <= remaining < 2 ^ 32 ->
  exists w',
    nni_msleep strerror Gettimeofday d w
               (Proceed l1 :: Adjust delta :: Proceed l3 :: Proceed l4 :: rest)
    = Running w'
    /\ trace w' = trace w ++ [SysGettimeofday; SysPoll 0 d; SysGettimeofday;
                              SysPoll 0 (remaining - 2 ^ 32)]
    /\ remaining - 2 ^ 32 < 0.
Proof.
  intros t1 t3 remaining Hd H0 Hmax1 H3 Hrem.
  assert (Hlt : t3 < t1).
  { destruct (Z.lt_ge_cases t3 t1) as [H|H]; [exact H|].
    pose proof (Z.div_le_mono t1 t3 1000000 ltac:(lia) H).
    unfold remaining in Hrem. lia. }
  rewrite nni_msleep_poll_start by reflexivity.
  cbn [pass advance tod_ns]. fold t1.
  assert (Ht1 : 0 <= t1 < 2 ^ 63) by (unfold t1; lia).
  rewrite (wrap64_msec_small t1 Ht1).
  assert (Hq0 : 0 <= t1 / 1000000) by (apply Z.div_pos; lia).
  assert (Hq1 : t1 / 1000000 < 2 ^ 63) by (apply Z.div_lt_upper_bound; lia).
  rewrite expire_no_wrap by lia.
  cbn [List.length]. rewrite poll_loop_run.
  destruct (Z.ltb_spec (t1 / 1000000) (t1 / 1000000 + d)) as [_|]; [|lia].
  replace (t1 / 1000000 + d - t1 / 1000000) with d by lia.
  rewrite wrap64_small, to_int_small by lia.
  unfold sys_poll at 1. destruct (Z.ltb_spec d 0) as [|_]; [lia|].
  rewrite clock_legacy_ok by reflexivity.
  cbn [pass advance step_tod log tod_ns mono_ns timebase os_10_12 errno
       trace].
  fold t1.
  replace (t1 + delta + d * 1000000 + Z.of_N l3) with t3 by reflexivity.
  assert (Ht3 : 0 <= t3 < 2 ^ 63) by lia.
  rewrite (wrap64_msec_small t3 Ht3).
  rewrite poll_loop_run.
  destruct (Z.ltb_spec (t3 / 1000000) (t1 / 1000000 + d)) as [_|Hge];
    [|unfold remaining in Hrem; lia].
  fold remaining.
  rewrite wrap64_small, to_int_high by lia.
  unfold sys_poll. destruct (Z.ltb_spec (remaining - 2 ^ 32) 0) as [_|];
    [|lia].
  eexists. split; [reflexivity|]. split; [|lia].
  unfold log, advance, step_tod.
  cbn [trace mono_ns tod_ns timebase os_10_12 errno].
  rewrite <- !app_assoc. reflexivity.
Qed.

(** X11: a forward setting of the time of day cuts the legacy sleep short.
    If [poll] comes back early and the time of day has by then been set
    forward up to the expiry, Sleep returns at once: the time really gone
    by is what the calls took, whatever [d] was. *)
Theorem nni_msleep_poll_set_forward_returns
        (d : nni_duration) (w : sys) (l1 el : N) (delta : Z)
        (rest : list env_step) :
  let t1 := tod_ns w + Z.of_N l1 in
  let t3 := t1 + Z.of_N el + delta in
  0 < d < 2 ^ 31 ->
  0 <= tod_ns w -> t3 < 2 ^ 63 ->
  t1 / 1000000 + d <= t3 / 1000000 ->
  exists w',
    nni_msleep strerror Gettimeofday d w
               (Proceed l1 :: Interrupt el :: Adjust delta :: rest)
    = Returned tt w' rest
    /\ trace w' = trace w ++ [SysGettimeofday; SysPoll 0 d; SysGettimeofday]
    /\ mono_ns w' = mono_ns w + Z.of_N l1 + Z.of_N el.
Proof.
  intros t1 t3 Hd H0 Hmax Hreach.
  assert (Hle : t1 <= t3).
  { destruct (Z.le_gt_cases t1 t3) as [H|H]; [exact H|].
    pose proof (Z.div_le_mono t3 t1 1000000 ltac:(lia) ltac:(lia)). lia. }
  rewrite nni_msleep_poll_start by reflexivity.
  cbn [pass advance tod_ns]. fold t1.
  assert (Ht1 : 0 <= t1 < 2 ^ 63) by (unfold t1 in *; lia).
  rewrite (wrap64_msec_small t1 Ht1).
  assert (Hq0 : 0 <= t1 / 1000000) by (apply Z.div_pos; lia).
  assert (Hq1 : t1 / 1000000 < 2 ^ 63) by (apply Z.div_lt_upper_bound; lia).
  rewrite expire_no_wrap by lia.
  cbn [List.length]. rewrite poll_loop_run.
  destruct (Z.ltb_spec (t1 / 1000000) (t1 / 1000000 + d)) as [_|]; [|lia].
  replace (t1 / 1000000 + d - t1 / 1000000) with d by lia.
  rewrite wrap64_small, to_int_small by lia.
  assert (Hpoll : exists rv err,
             sys_poll 0 d (log SysGettimeofday (advance (Z.of_N l1) w))
                      (Interrupt el)
             = Some (rv, log (SysPoll 0 d)
                             (set_errno err
                                (advance (Z.of_N el)
                                   (log SysGettimeofday
                                        (advance (Z.of_N l1) w)))))).
  { unfold sys_poll.
    destruct ((d <? 0) || (Z.of_N el <? d * 1000000)).
    - exists (-1), EINTR. reflexivity.
    - exists 0, (errno w). reflexivity. }
  destruct Hpoll as (rv & err & ->).
  rewrite clock_legacy_ok by reflexivity.
  cbn [pass advance step_tod set_errno log tod_ns mono_ns timebase os_10_12
       errno trace].
  fold t1. replace (t1 + Z.of_N el + delta) with t3 by reflexivity.
  assert (Ht3 : 0 <= t3 < 2 ^ 63) by lia.
  rewrite (wrap64_msec_small t3 Ht3).
  eexists. split.
  - destruct (List.length rest); cbn [poll_loop];
      destruct (Z.ltb_spec (t3 / 1000000) (t1 / 1000000 + d));
      try lia; reflexivity.
  - unfold log, advance, set_errno, step_tod.
    cbn [trace mono_ns tod_ns timebase os_10_12 errno].
    rewrite <- ?app_assoc. split; [reflexivity | lia].
Qed.

(** ** What Clock calls *)

Lemma sys_clock_gettime_trace (clk : clockid) (w : sys) (e : env_step) :
  trace (snd (sys_clock_gettime clk w e)) = trace w ++ [SysClockGettime clk].
Proof.
  destruct (pass_frame e w) as (_ & _ & Htr).
  unfold sys_clock_gettime.
  destruct clk, e; cbn [snd log set_errno trace]; rewrite ?Htr; reflexivity.
Qed.

(** X12: Clock never waits.  On every build and whatever the environment
    does, a call of Clock makes time queries only, two at most (the tick
    path reads the counter and the scale factor), and never [nanosleep]
    or [poll]. *)
Theorem nni_clock_never_waits (b : build) (w : sys) (s : list env_step) :
  exists calls,
    trace (sys_of (nni_clock strerror b w s)) = trace w ++ calls
    /\ forallb is_time_query calls = true
    /\ (List.length calls <= 2)%nat
    /\ wait_calls calls = [].
Proof.
  rewrite nni_clock_dispatch.
  destruct s as [|e rest].
  { exists []. rewrite app_nil_r.
    destruct (time_source_of b w); repeat split; cbn [List.length]; lia. }
  destruct (time_source_of b w) as [clk| |].
  - rewrite nni_clock_gettime_run.
    pose proof (sys_clock_gettime_trace clk w e) as Htr.
    destruct (sys_clock_gettime clk w e) as [[rv out] w1]. cbn [snd] in Htr.
    exists [SysClockGettime clk].
    destruct (rv =? 0); cbn [sys_of]; repeat split; try exact Htr;
      cbn [List.length]; lia.
  - rewrite nni_clock_mach_run. unfold sys_mach_absolute_time.
    destruct (pass_frame e w) as (_ & _ & Htr).
    exists [SysMachAbsoluteTime; SysMachTimebaseInfo].
    destruct (mach_ticks_to_msec _ _); cbn [sys_of log trace];
      rewrite Htr, <- app_assoc; repeat split; cbn [List.length]; lia.
  - rewrite nni_clock_gettimeofday_run.
    pose proof (sys_gettimeofday_trace w e) as Htr.
    destruct (sys_gettimeofday w e) as [[rv out] w1]. cbn [snd] in Htr.
    exists [SysGettimeofday].
    destruct (rv =? 0); cbn [sys_of]; repeat split; try exact Htr;
      cbn [List.length]; lia.
Qed.

(** ** Sleep with [nanosleep], interrupted or failing *)

Lemma msleep_timespec_as_ns (ms : nni_duration) :
  0 <= ms -> msleep_timespec ms = timespec_of_ns (ms * 1000000).
Proof.
  intros Hms. destruct (msleep_timespec_nonneg ms Hms) as (-> & _ & _).
  unfold timespec_of_ns.
  change 1000000000 with (1000 * 1000000).
  rewrite Z.div_mul_cancel_r, Z.mul_mod_distr_r by lia. reflexivity.
Qed.

Lemma msleep_timespec_nonzero (ms : nni_duration) :
  ms <> 0 -> nonzero (msleep_timespec ms) = true.
Proof.
  intros Hms. unfold nonzero, msleep_timespec. cbn [tv_sec tv_nsec].
  apply orb_true_iff. rewrite !negb_true_iff, !Z.eqb_neq.
  pose proof (Z.quot_rem' ms 1000) as Hqr.
  destruct (Z.eq_dec (Z.quot ms 1000) 0) as [Hq|Hq]; [right|left; exact Hq].
  intros Hr. rewrite Hq in Hqr. lia.
Qed.

(** The loop through a run of interruptions that together stay short of the
    request: it arrives at the next step with the remainder in the buffer,
    having asked each time for what was left. *)
Lemma nanosleep_loop_resumes (tail : list env_step) :
  forall els n w,
    total_elapsed els < n ->
    exists w0,
      nanosleep_loop (List.length (map Interrupt els ++ tail))
                     (timespec_of_ns n) w (map Interrupt els ++ tail)
      = nanosleep_loop (List.length tail)
                       (timespec_of_ns (n - total_elapsed els)) w0 tail
      /\ mono_ns w0 = mono_ns w + total_elapsed els
      /\ trace w0 = trace w ++ resumed_requests n els.
Proof.
  induction els as [|el els IH]; intros n w Hlt.
  - exists w. cbn [map app total_elapsed fold_right resumed_requests].
    rewrite Z.sub_0_r, Z.add_0_r, app_nil_r. repeat split.
  - cbn [total_elapsed fold_right] in Hlt |- *.
    fold (total_elapsed els) in Hlt |- *.
    pose proof (total_elapsed_nonneg els) as Hnn.
    destruct (timespec_of_ns_valid n) as [Hv Hns]; [lia|].
    pose proof (nanosleep_interrupted_resumes 0 (timespec_of_ns n) w el
                  (Proceed 0) []) as Hstep.
    cbv zeta in Hstep. rewrite Hns in Hstep.
    destruct (Hstep Hv ltac:(lia)) as (Hsys & _).
    cbn [map app List.length resumed_requests].
    rewrite nanosleep_loop_run, nonzero_of_ns, Hsys by lia.
    change (-1 =? 0) with false. cbv iota. cbn [stored].
    destruct (IH (n - Z.of_N el)
                 (log (SysNanosleep (timespec_of_ns n))
                      (set_errno EINTR (advance (Z.of_N el) w)))
                 ltac:(lia)) as (w0 & Hrun & Hm & Htr).
    exists w0. rewrite Hrun.
    replace (n - (Z.of_N el + total_elapsed els))
      with (n - Z.of_N el - total_elapsed els) by lia.
    split; [reflexivity|]. split.
    + rewrite Hm. cbn [log set_errno advance mono_ns]. lia.
    + rewrite Htr. cbn [log set_errno advance trace].
      rewrite <- app_assoc. reflexivity.
Qed.

(** C4: when [nanosleep] is interrupted before the requested time is over,
    Sleep goes round with exactly the remainder, and the caller sees
    nothing of it.  For a Sleep of [ms > 0] whose calls are interrupted
    after [els], together less than the request: the first call asks for
    [ms / 1000] seconds and [(ms mod 1000) * 1000000] nanoseconds (lines
    100-101), every later call for the request less all the time slept in
    the calls before it, and the call after the last interruption for
    [ms] milliseconds less the whole of [els]; if that call runs to its
    end Sleep returns, having made no other call, exactly when the request
    (and the lapse of the last call) has gone by; whenever Sleep returns
    the whole request has gone by; and Sleep never panics or reports
    anything. *)
Theorem nni_msleep_interrupted_resumes
        (b : build) (ms : nni_duration) (w : sys) (els : list N)
        (e' : env_step) (rest : list env_step) :
  b <> Gettimeofday ->
  0 < ms ->
  total_elapsed els < ms * 1000000 ->
  let rem := timespec_of_ns (ms * 1000000 - total_elapsed els) in
  let out := nni_msleep strerror b ms w (map Interrupt els ++ e' :: rest) in
  timespec_of_ns (ms * 1000000)
  = mk_timespec (ms / 1000) (ms mod 1000 * 1000000)
  /\ ns_of_timespec rem = ms * 1000000 - total_elapsed els
  /\ (exists after,
        trace (sys_of out)
        = trace w ++ resumed_requests (ms * 1000000) els
                  ++ SysNanosleep rem :: after)
  /\ (forall lapse, e' = Proceed lapse ->
        exists w2,
          out = Returned tt w2 rest
          /\ mono_ns w2 = mono_ns w + ms * 1000000 + Z.of_N lapse
          /\ trace w2
             = trace w ++ resumed_requests (ms * 1000000) els
                       ++ [SysNanosleep rem])
  /\ (forall w' s', out = Returned tt w' s' ->
        mono_ns w + ms * 1000000 <= mono_ns w')
  /\ (forall msg w', out <> Panicked msg w' /\ out <> Undefined w').
Proof.
  intros Hb Hms Hlt rem out.
  pose proof (total_elapsed_nonneg els) as Hnn.
  assert (Hfirst : msleep_timespec ms = timespec_of_ns (ms * 1000000))
    by (apply msleep_timespec_as_ns; lia).
  destruct (msleep_timespec_nonneg ms ltac:(lia)) as (Hform & Hv & Hns).
  destruct (timespec_of_ns_valid (ms * 1000000 - total_elapsed els))
    as [Hvr Hnr]; [lia|].
  fold rem in Hvr, Hnr.
  destruct (nanosleep_loop_resumes (e' :: rest) els (ms * 1000000) w Hlt)
    as (w0 & Hrun & Hm0 & Htr0).
  fold rem in Hrun.
  assert (Hout : out = nanosleep_loop (S (List.length rest)) rem w0
                                      (e' :: rest)).
  { unfold out. rewrite nni_msleep_is_loop, Hfirst by exact Hb. exact Hrun. }
  assert (Hnz : negb (tv_sec rem =? 0) || negb (tv_nsec rem =? 0) = true)
    by (apply nonzero_of_ns; lia).
  split; [rewrite <- Hfirst; exact Hform|]. split; [exact Hnr|].
  split; [|split; [|split]].
  - rewrite Hout, nanosleep_loop_run, Hnz.
    pose proof (sys_nanosleep_trace rem w0 e') as Htr.
    destruct (sys_nanosleep rem w0 e') as [[rv2 out2] w2]. cbn [snd] in Htr.
    destruct (rv2 =? 0).
    + exists []. cbn [sys_of]. rewrite Htr, Htr0, <- app_assoc. reflexivity.
    + destruct (nanosleep_loop_trace (List.length rest) (stored rem out2)
                                     w2 rest) as [calls Hc].
      exists calls. rewrite Hc, Htr, Htr0, <- !app_assoc. reflexivity.
  - intros lapse ->. rewrite Hout, nanosleep_loop_run, Hnz.
    unfold sys_nanosleep. rewrite Hvr. cbn [negb].
    change (0 =? 0) with true. cbv iota. eexists. split; [reflexivity|].
    split.
    + cbn [log advance mono_ns]. lia.
    + cbn [log advance trace]. rewrite Htr0, <- app_assoc. reflexivity.
  - intros w' s' Hret. unfold out in Hret.
    rewrite nni_msleep_is_loop in Hret by exact Hb.
    destruct (nanosleep_loop_sleeps_enough _ _ _ _ _ _ Hv Hret) as [Hle _].
    lia.
  - intros msg w'. unfold out. rewrite nni_msleep_is_loop by exact Hb.
    pose proof (nanosleep_loop_no_fault
                  (List.length (map Interrupt els ++ e' :: rest))
                  (msleep_timespec ms) w
                  (map Interrupt els ++ e' :: rest)) as Hnf.
    split; intros Heq; rewrite Heq in Hnf; exact Hnf.
Qed.

(** The loop through a run of calls that all returned nonzero: it arrives
    at the next step with the buffer as those calls left it. *)
Lemma nanosleep_loop_after_failures (tail : list env_step) :
  forall pre ts w ts' w',
    nonzero ts = true ->
    after_failures ts w pre = Some (ts', w') ->
    nanosleep_loop (List.length (pre ++ tail)) ts w (pre ++ tail)
    = nanosleep_loop (List.length tail) ts' w' tail
    /\ nonzero ts' = true
    /\ exists before,
         trace w' = trace w ++ before
         /\ List.length before = List.length pre
         /\ forallb is_nanosleep before = true.
Proof.
  induction pre as [|e pre IH]; intros ts w ts' w' Hnz Haf.
  - injection Haf as <- <-. split; [reflexivity|]. split; [exact Hnz|].
    exists []. rewrite app_nil_r. repeat split.
  - cbn [after_failures] in Haf. cbn [app List.length].
    rewrite nanosleep_loop_run. fold (nonzero ts). rewrite Hnz.
    pose proof (sys_nanosleep_trace ts w e) as Htr.
    destruct (sys_nanosleep ts w e) as [[rv out] w1] eqn:Hsys.
    cbn [snd] in Htr.
    destruct (Z.eqb_spec rv 0) as [|Hrv]; [discriminate Haf|].
    pose proof (sys_nanosleep_leaves_request _ _ _ _ _ _ Hnz Hsys Hrv)
      as Hnz1.
    destruct (IH _ _ _ _ Hnz1 Haf) as (Hrun & Hnz' & before & Hb & Hlen & Hall).
    split; [exact Hrun|]. split; [exact Hnz'|].
    exists (SysNanosleep ts :: before).
    rewrite Hb, Htr, <- app_assoc.
    cbn [app List.length forallb is_nanosleep andb]. rewrite Hlen, Hall.
    repeat split.
Qed.

(** C9: in the [nanosleep] version of Sleep every nonzero status of the
    system call, whatever its value and whatever [errno] says, is answered
    by calling [nanosleep] again on the buffer as the call left it.  Sleep
    with a nonzero [ms] starts on the request of lines 100-101; after any
    run [pre] of calls that returned nonzero, a further call that returns
    nonzero, on the buffer [ts] as it then is, is followed by [nanosleep]
    on that buffer as this call left it (the remainder if one was stored,
    [ts] unchanged otherwise), Sleep has made nothing but [nanosleep]
    calls until then, what Sleep does from there on is the same whatever
    [errno] the call left, and Sleep neither panics nor reports
    anything. *)
Theorem nni_msleep_any_error_retries
        (b : build) (ms : nni_duration) (w : sys) (pre : list env_step)
        (e e' : env_step) (rest : list env_step)
        (ts : timespec) (w0 : sys)
        (rv : Z) (out : option timespec) (w1 : sys) :
  b <> Gettimeofday ->
  ms <> 0 ->
  after_failures (msleep_timespec ms) w pre = Some (ts, w0) ->
  sys_nanosleep ts w0 e = (rv, out, w1) ->
  rv <> 0 ->
  let run := nni_msleep strerror b ms w (pre ++ e :: e' :: rest) in
  run = nanosleep_loop (S (List.length rest)) (stored ts out) w1 (e' :: rest)
  /\ (pre = [] -> ts = msleep_timespec ms)
  /\ (exists before calls,
        trace (sys_of run)
        = trace w ++ before
                  ++ SysNanosleep ts :: SysNanosleep (stored ts out) :: calls
        /\ List.length before = List.length pre
        /\ forallb is_nanosleep before = true)
  /\ (forall err,
        same_outcome
          (nanosleep_loop (S (List.length rest)) (stored ts out)
                          (set_errno err w1) (e' :: rest))
          run)
  /\ (forall msg w', run <> Panicked msg w' /\ run <> Undefined w').
Proof.
  intros Hb Hms Haf Hsys Hrv run.
  pose proof (msleep_timespec_nonzero ms Hms) as Hnz0.
  destruct (nanosleep_loop_after_failures (e :: e' :: rest) pre
              (msleep_timespec ms) w ts w0 Hnz0 Haf)
    as (Hrun0 & Hnz & before & Hbefore & Hlen & Hall).
  assert (Hor : tv_sec ts <> 0 \/ tv_nsec ts <> 0).
  { apply orb_true_iff in Hnz. rewrite !negb_true_iff, !Z.eqb_neq in Hnz.
    exact Hnz. }
  pose proof (nanosleep_any_error_retries strerror (List.length rest) ts w0 e e'
                rest rv out w1 Hor Hsys Hrv) as Hturn.
  cbv zeta in Hturn.
  assert (Hrun : run = nanosleep_loop (S (S (List.length rest))) ts w0
                                      (e :: e' :: rest)).
  { unfold run. rewrite nni_msleep_is_loop by exact Hb. exact Hrun0. }
  rewrite <- Hrun in Hturn.
  destruct Hturn as (Hnext & (calls & Hcalls) & Hblind & _).
  split; [exact Hnext|]. split; [|split; [|split]].
  - intros ->. cbn [after_failures] in Haf. injection Haf as <- _.
    reflexivity.
  - exists before, calls. rewrite Hcalls, Hbefore, <- app_assoc.
    repeat split; assumption.
  - exact Hblind.
  - intros msg w'. unfold run. rewrite nni_msleep_is_loop by exact Hb.
    pose proof (nanosleep_loop_no_fault
                  (List.length (pre ++ e :: e' :: rest))
                  (msleep_timespec ms) w (pre ++ e :: e' :: rest)) as Hnf.
    split; intros Heq; rewrite Heq in Hnf; exact Hnf.
Qed.

End MoreProperties.

(** * The further properties on sample runs *)

(** 1999 microseconds past the second read as one millisecond. *)
Lemma nni_clock_seconds_microseconds_run :
  nni_clock strerror_sample Gettimeofday sys_sample [Proceed 1999999]
  = Returned 1700000000001
      (log SysGettimeofday (advance 1999999 sys_sample)) [].
Proof.
  destruct (nni_clock_seconds_microseconds strerror_sample sys_sample
              (log SysGettimeofday (advance 1999999 sys_sample))
              (Proceed 1999999) [] (TV.mk_timeval 1700000000 1999)
              eq_refl) as [_ H].
  destruct H as [H _];
    [first [vm_compute; reflexivity | vm_compute; discriminate] ..|].
  exact H.
Defined.

(** A sleep of 10 ms on the tick build, interrupted once. *)
Lemma nni_msleep_nanosleep_real_time_run :
  mono_ns (sys_tick 0) + 10 * 1000000
  <= mono_ns (sys_of (nni_msleep strerror_sample (Apple CLOCK_MONOTONIC false)
                                 10 (sys_tick 0)
                                 [Interrupt 4000000; Proceed 7])).
Proof.
  apply (nni_msleep_nanosleep_real_time strerror_sample
           (Apple CLOCK_MONOTONIC false) 10 (sys_tick 0)
           [Interrupt 4000000; Proceed 7] _ []);
    [discriminate | lia | reflexivity].
Defined.

(** 1500 ms are one second and 500000000 nanoseconds. *)
Lemma nni_msleep_first_request_run :
  ns_of_timespec (mk_timespec (1500 / 1000) (1500 mod 1000 * 1000000))
  = 1500 * 1000000.
Proof.
  assert (Hb : Posix CLOCK_MONOTONIC <> Gettimeofday) by discriminate.
  assert (Hms : 0 < 1500 < 2 ^ 31) by lia.
  destruct (nni_msleep_first_request strerror_sample (Posix CLOCK_MONOTONIC)
              1500 sys_sample (Proceed 0) [] Hb Hms) as (_ & _ & H & _).
  exact H.
Defined.

Lemma nni_msleep_only_nanosleep_run :
  exists calls,
    trace (sys_of (nni_msleep strerror_sample (Posix CLOCK_MONOTONIC) 1500
                              sys_sample
                              [Interrupt 700000000; Fail 5; Proceed 0]))
    = trace sys_sample ++ calls
    /\ forallb (nanosleep_within (1500 * 1000000)) calls = true
    /\ (List.length calls
        <= List.length [Interrupt 700000000; Fail 5; Proceed 0])%nat.
Proof.
  apply (nni_msleep_only_nanosleep strerror_sample (Posix CLOCK_MONOTONIC)
           1500 sys_sample [Interrupt 700000000; Fail 5; Proceed 0]);
    [discriminate | lia].
Defined.

(** Two interruptions, after 0.7 s and after one more nanosecond. *)
Lemma nni_msleep_interrupted_total_run :
  exists w',
    nni_msleep strerror_sample (Posix CLOCK_MONOTONIC) 1500 sys_sample
               (map Interrupt [700000000%N; 1%N] ++ Proceed 10 :: [])
    = Returned tt w' []
    /\ mono_ns w' = mono_ns sys_sample + 1500 * 1000000 + Z.of_N 10
    /\ List.length (trace w')
       = (List.length (trace sys_sample)
          + List.length [700000000%N; 1%N] + 1)%nat.
Proof.
  apply (nni_msleep_interrupted_total strerror_sample (Posix CLOCK_MONOTONIC)
           1500 sys_sample [700000000%N; 1%N] 10 []);
    [discriminate | lia | reflexivity].
Defined.

(** A duration of -1 over three steps of the environment. *)
Lemma nni_msleep_negative_spins_run :
  exists w',
    nni_msleep strerror_sample (Posix CLOCK_MONOTONIC) (-1) sys_sample
               [Proceed 0; Interrupt 5; Proceed 0]
    = Running w'
    /\ trace w'
       = trace sys_sample
         ++ repeat (SysNanosleep (msleep_timespec (-1)))
                   (List.length [Proceed 0; Interrupt 5; Proceed 0])
    /\ valid_request (msleep_timespec (-1)) = false
    /\ ([Proceed 0; Interrupt 5; Proceed 0] <> [] ->
        errno w' = EINVAL).
Proof.
  apply (nni_msleep_negative_spins strerror_sample (Posix CLOCK_MONOTONIC)
           (-1) sys_sample [Proceed 0; Interrupt 5; Proceed 0]);
    [discriminate | lia].
Defined.

(** A sleep of 15 ms whose first [poll] is cut short after 7 ms. *)
Lemma nni_msleep_poll_timeouts_run :
  exists calls,
    trace (sys_of (nni_msleep strerror_sample Gettimeofday 15 sys_sample
                              [Proceed 0; Interrupt 7000000; Proceed 0;
                               Proceed 0; Proceed 3]))
    = trace sys_sample ++ calls
    /\ forallb (poll_sleep_call 15) calls = true.
Proof.
  apply (nni_msleep_poll_timeouts strerror_sample 15 sys_sample
           [Proceed 0; Interrupt 7000000; Proceed 0; Proceed 0; Proceed 3]);
    [lia | reflexivity | cbn [sys_sample tod_ns]; lia
     | vm_compute; reflexivity].
Defined.

Lemma nni_msleep_poll_undisturbed_run :
  exists w',
    nni_msleep strerror_sample Gettimeofday 5 sys_sample
               [Proceed 1; Proceed 2; Proceed 3]
    = Returned tt w' []
    /\ trace w'
       = trace sys_sample ++ [SysGettimeofday; SysPoll 0 5; SysGettimeofday]
    /\ mono_ns w'
       = mono_ns sys_sample + Z.of_N 1 + 5 * 1000000 + Z.of_N 2 + Z.of_N 3.
Proof.
  apply (nni_msleep_poll_undisturbed strerror_sample 5 sys_sample 1 2 3 []);
    [lia | cbn [sys_sample tod_ns]; lia | vm_compute; reflexivity].
Defined.

(** A sleep of 1 ms begun 0.9 ms into a millisecond and cut short. *)
Lemma nni_msleep_poll_real_time_run :
  0 + 1 * 1000000 - 999999
  <= mono_ns (sys_of (nni_msleep strerror_sample Gettimeofday 1
                        (mk_sys 0 900000 (mk_timebase 1 1) false 0 [])
                        [Proceed 0; Interrupt 100000; Proceed 0])).
Proof.
  apply (nni_msleep_poll_real_time strerror_sample 1
           (mk_sys 0 900000 (mk_timebase 1 1) false 0 [])
           [Proceed 0; Interrupt 100000; Proceed 0] _ []);
    [reflexivity | lia | reflexivity | cbn [tod_ns]; lia
     | vm_compute; reflexivity].
Defined.

(** The longest sleep, and the time of day set back during the wait by one
    millisecond more than it lasts. *)
Lemma nni_msleep_poll_set_back_blocks_run :
  exists w',
    nni_msleep strerror_sample Gettimeofday 2147483647 sys_sample
               [Proceed 0; Adjust (-2147483648000000); Proceed 0; Proceed 0]
    = Running w'
    /\ trace w'
       = trace sys_sample
         ++ [SysGettimeofday; SysPoll 0 2147483647; SysGettimeofday;
             SysPoll 0 ((tod_ns sys_sample + Z.of_N 0) / 1000000 + 2147483647
                        - (tod_ns sys_sample + Z.of_N 0
                           + -2147483648000000 + 2147483647 * 1000000
                           + Z.of_N 0) / 1000000 - 2 ^ 32)]
    /\ (tod_ns sys_sample + Z.of_N 0) / 1000000 + 2147483647
       - (tod_ns sys_sample + Z.of_N 0 + -2147483648000000
          + 2147483647 * 1000000 + Z.of_N 0) / 1000000 - 2 ^ 32 < 0.
Proof.
  apply (nni_msleep_poll_set_back_blocks strerror_sample 2147483647
           sys_sample 0 0 0 (-2147483648000000) []);
    [lia | cbn [sys_sample tod_ns]; lia | vm_compute; reflexivity
     | vm_compute; discriminate | vm_compute; split; [discriminate|reflexivity]].
Defined.

(** A sleep of 5 ms, a signal after 100 ns and the time of day set forward
    by 5 ms. *)
Lemma nni_msleep_poll_set_forward_returns_run :
  exists w',
    nni_msleep strerror_sample Gettimeofday 5 sys_sample
               [Proceed 0; Interrupt 100; Adjust 5000000]
    = Returned tt w' []
    /\ trace w'
       = trace sys_sample ++ [SysGettimeofday; SysPoll 0 5; SysGettimeofday]
    /\ mono_ns w' = mono_ns sys_sample + Z.of_N 0 + Z.of_N 100.
Proof.
  apply (nni_msleep_poll_set_forward_returns strerror_sample 5 sys_sample
           0 100 5000000 []);
    [lia | cbn [sys_sample tod_ns]; lia | vm_compute; reflexivity
     | vm_compute; discriminate].
Defined.

(** A Sleep of 1.5 s interrupted after 0.7 s and again 1 ns later: the
    calls ask for 1.5 s, for 0.8 s and for 0.799999999 s, and Sleep returns
    when the last of them has run to its end. *)
Lemma nni_msleep_interrupted_resumes_run :
  exists w2,
    nni_msleep strerror_sample (Posix CLOCK_MONOTONIC) 1500 sys_sample
               (map Interrupt [700000000%N; 1%N] ++ Proceed 10 :: [])
    = Returned tt w2 []
    /\ mono_ns w2 = mono_ns sys_sample + 1500 * 1000000 + Z.of_N 10
    /\ trace w2
       = trace sys_sample
         ++ [SysNanosleep (mk_timespec 1 500000000);
             SysNanosleep (mk_timespec 0 800000000)]
         ++ [SysNanosleep (mk_timespec 0 799999999)].
Proof.
  assert (Hb : Posix CLOCK_MONOTONIC <> Gettimeofday) by discriminate.
  assert (Hms : 0 < 1500) by lia.
  assert (Hlt : total_elapsed [700000000%N; 1%N] < 1500 * 1000000)
    by (vm_compute; reflexivity).
  destruct (nni_msleep_interrupted_resumes strerror_sample
              (Posix CLOCK_MONOTONIC) 1500 sys_sample [700000000%N; 1%N]
              (Proceed 10) [] Hb Hms Hlt) as (_ & _ & _ & Hdone & _).
  exact (Hdone 10%N eq_refl).
Defined.

(** A Sleep of 1.5 s whose first call fails with [EIO] and whose second is
    interrupted after 0.7 s: the loop goes on with the 0.8 s that the
    second call left. *)
Lemma nni_msleep_any_error_retries_run :
  nni_msleep strerror_sample (Posix CLOCK_MONOTONIC) 1500 sys_sample
             ([Fail 5] ++ Interrupt 700000000 :: Proceed 0 :: [])
  = nanosleep_loop 1
      (stored (mk_timespec 1 500000000) (Some (mk_timespec 0 800000000)))
      (log (SysNanosleep (mk_timespec 1 500000000))
           (set_errno EINTR
              (advance 700000000
                 (log (SysNanosleep (mk_timespec 1 500000000))
                      (set_errno 5 sys_sample)))))
      [Proceed 0].
Proof.
  assert (Hb : Posix CLOCK_MONOTONIC <> Gettimeofday) by discriminate.
  assert (Hms : 1500 <> 0) by lia.
  assert (Haf : after_failures (msleep_timespec 1500) sys_sample [Fail 5]
                = Some (mk_timespec 1 500000000,
                        log (SysNanosleep (mk_timespec 1 500000000))
                            (set_errno 5 sys_sample)))
    by (vm_compute; reflexivity).
  assert (Hsys : sys_nanosleep (mk_timespec 1 500000000)
                   (log (SysNanosleep (mk_timespec 1 500000000))
                        (set_errno 5 sys_sample))
                   (Interrupt 700000000)
                 = (-1, Some (mk_timespec 0 800000000),
                    log (SysNanosleep (mk_timespec 1 500000000))
                        (set_errno EINTR
                           (advance 700000000
                              (log (SysNanosleep (mk_timespec 1 500000000))
                                   (set_errno 5 sys_sample))))))
    by (vm_compute; reflexivity).
  assert (Hrv : -1 <> 0) by lia.
  destruct (nni_msleep_any_error_retries strerror_sample
              (Posix CLOCK_MONOTONIC) 1500 sys_sample [Fail 5]
              (Interrupt 700000000) (Proceed 0) [] _ _ _ _ _
              Hb Hms Haf Hsys Hrv) as (H & _).
  exact H.
Defined.
